(** * Productivity & Roster API: the handlers of [main.py] over a document store

    The development embeds the request handlers of [src/main.py] and the
    schemas of [src/schemas.py].  A handler is a function from the store to a
    new store and an outcome (a returned value or a raised exception); the
    filters the handlers build are kept as data, the way the code builds them
    as dictionaries, and are interpreted by the store. *)

From Stdlib Require Import String Ascii NArith List Bool Lia.
From stdpp Require Import base option list gmap strings.

Import ListNotations.
Local Open Scope string_scope.
Set Warnings "-register-all".

(** ** Values and documents *)

(** The values that occur in the documents of the three collections: the
    schemas only hold texts, optional texts ([None] is stored as null) and
    booleans. *)
Inductive bson :=
| BNull
| BBool (b : bool)
| BStr (s : string).

Definition bson_eqb (x y : bson) : bool :=
  match x, y with
  | BNull, BNull => true
  | BBool a, BBool b => Bool.eqb a b
  | BStr a, BStr b => String.eqb a b
  | _, _ => false
  end.

(** A document is a dictionary from field names to values. *)
Abbreviation doc := (gmap string bson).

(** The store's native identifier.  Handlers hand it out as text
    ([str(inserted_id)], [str(u.pop("_id"))]); the text determines the
    identifier and conversely, and no handler looks inside it, so the model
    keeps the identifier itself where the code keeps its text. *)
Definition ObjectId := N.

(** A document as the store keeps it: its [_id] and its fields. *)
Record stored := Stored { _id : ObjectId; body : doc }.

(** A document as a listing returns it: [_id] popped, [id] set. *)
Record listed := Listed { id : ObjectId; fields : doc }.

(** ** Filters *)

Inductive operator := op_lt | op_lte | op_gt | op_gte.

(** What a filter says about one key: [{key: v}] or [{key: {"$op": v, ...}}]. *)
Inductive clause :=
| Equals (v : bson)
| Ops (l : list (operator * bson)).

(** One entry of a filter dictionary: a field key with its clause, or the
    key ["$or"] with its list of alternative filters. *)
Inductive entry :=
| Field (key : string) (c : clause)
| Or (alts : list (list entry)).

Abbreviation filter := (list entry).

(** Ordering of values inside one type; values of different types never
    compare.  Texts compare byte by byte, a proper prefix first. *)
Definition bson_ltb (x y : bson) : bool :=
  match x, y with
  | BStr a, BStr b => String.ltb a b
  | BBool a, BBool b => negb a && b
  | _, _ => false
  end.

Definition bson_leb (x y : bson) : bool :=
  match x, y with
  | BStr a, BStr b => String.leb a b
  | BBool a, BBool b => implb a b
  | BNull, BNull => true
  | _, _ => false
  end.

Definition compare_op (o : operator) (field arg : bson) : bool :=
  match o with
  | op_lt => bson_ltb field arg
  | op_lte => bson_leb field arg
  | op_gt => bson_ltb arg field
  | op_gte => bson_leb arg field
  end.

(** Whether the value found under a key (if any) satisfies a clause.  Equality
    with null also matches a missing field; an operator never matches one. *)
Definition holds (c : clause) (v : option bson) : bool :=
  match c with
  | Equals x =>
      match v with
      | Some y => bson_eqb x y
      | None => bson_eqb x BNull
      end
  | Ops l =>
      match v with
      | Some y => forallb (fun ox => compare_op (fst ox) y (snd ox)) l
      | None => false
      end
  end.

(** A document matches a filter when it satisfies every entry; it satisfies
    ["$or"] when it matches one of the alternatives. *)
Fixpoint matches_entry (d : doc) (e : entry) : bool :=
  match e with
  | Field k c => holds c (d !! k)
  | Or alts => existsb (fun f => forallb (matches_entry d) f) alts
  end.

Definition matches (f : filter) (d : doc) : bool := forallb (matches_entry d) f.

(** ** The store *)

(** The collections by name, each in insertion order, and the identifier the
    next insert receives.  The store is taken to be reachable: a failure to
    connect is outside the model. *)
Record Store := MkStore {
  collections : gmap string (list stored);
  next_oid : ObjectId
}.

(** [db[name]]: a collection nobody wrote to is empty. *)
Definition collection (name : string) (st : Store) : list stored :=
  default [] (collections st !! name).

(** ** Exceptions and the handler monad *)

Inductive exception :=
| HTTPException (status_code : nat) (detail : string)
| ValueError
| TypeError
| ValidationError.

Inductive outcome (A : Type) :=
| Return (a : A)
| Raise (e : exception).
Arguments Return {A} a.
Arguments Raise {A} e.

(** A handler reads and writes the store and ends by returning or raising. *)
Definition M (A : Type) : Type := Store -> Store * outcome A.

Definition ret {A} (a : A) : M A := fun st => (st, Return a).
Definition raise {A} (e : exception) : M A := fun st => (st, Raise e).
Definition bind {A B} (m : M A) (k : A -> M B) : M B :=
  fun st =>
    match m st with
    | (st', Return a) => k a st'
    | (st', Raise e) => (st', Raise e)
    end.
Definition lift {A} (r : outcome A) : M A := fun st => (st, r).

Declare Scope handler_scope.
Delimit Scope handler_scope with handler.
Notation "x <- m ;; k" := (bind m (fun x => k))
  (at level 100, m at next level, right associativity) : handler_scope.
Local Open Scope handler_scope.

(** The status of the response the framework sends: 200 for a returned value,
    the exception's own code for an [HTTPException], and 500 (internal server
    error) for any other exception that leaves the handler. *)
Definition status_code_of {A} (r : outcome A) : nat :=
  match r with
  | Return _ => 200
  | Raise (HTTPException c _) => c
  | Raise _ => 500
  end.

(** The detail text of the response, when the handler raised one. *)
Definition detail_of {A} (r : outcome A) : option string :=
  match r with
  | Raise (HTTPException _ d) => Some d
  | _ => None
  end.

(** ** Store operations *)

(** [db.<name>.find_one(filt)]: the first matching document, if any. *)
Definition find_one (name : string) (filt : filter) : M (option stored) :=
  fun st => (st, Return (List.find (fun d => matches filt (body d)) (collection name st))).

(** The store after one insert: the document is appended to the named
    collection under the next identifier, and the next identifier moves on. *)
Definition insert_document (name : string) (d : doc) (st : Store) : Store :=
  MkStore (<[name := (collection name st ++ [Stored (next_oid st) d])%list]> (collections st))
          (N.succ (next_oid st)).

(** Pydantic's [BaseModel]: what the helpers need of a schema instance. *)
Class BaseModel (T : Type) := model_dump : T -> doc.

(** Modelled from the spec: [create_document] of the [database] module, which
    is not among the source files.  "Given a validated candidate, persist it
    and return its generated identifier": one document is appended to the
    named collection under a fresh identifier, which is returned. *)
Definition create_document {T} `{BaseModel T} (name : string) (data : T) : M ObjectId :=
  fun st => (insert_document name (model_dump data) st, Return (next_oid st)).

(** Modelled from the spec: [get_documents] of the [database] module, which
    is not among the source files.  "The store returns matching documents":
    all documents of the named collection that match the filter, in the
    store's order. *)
Definition get_documents (name : string) (filt : filter) : M (list stored) :=
  fun st => (st, Return (List.filter (fun d => matches filt (body d)) (collection name st))).

(** ** Imported libraries

    What the handlers call from the Python libraries they import.  The
    handlers are written against this interface, so every theorem about them
    holds for any behaviour of the libraries. *)
Class Libraries := {
  (** [datetime.datetime] *)
  datetime : Type;
  (** [datetime.fromisoformat]; [None] where it raises [ValueError]. *)
  fromisoformat : string -> option datetime;
  (** [a <= b] on datetimes; [None] where it raises [TypeError] (an
      offset-naive datetime against an offset-aware one). *)
  datetime_le : datetime -> datetime -> option bool;
  (** Validation of an [EmailStr] field: the address as the schema instance
      holds it, or [None] where validation fails. *)
  validate_email : string -> option string;
  (** [bson.ObjectId(text)]; [None] where it raises. *)
  ObjectId_of_str : string -> option ObjectId
}.

(** ** Schemas ([schemas.py]) *)

Module User.
Record t := Make {
  name : string;
  email : string;
  alias : option string;
  role : string;
  manager_id : option string;
  geo : option string;
  timezone : option string;
  is_active : bool
}.
End User.

Module Tasktype.
Record t := Make {
  name : string;
  code : option string;
  description : option string;
  active : bool
}.
End Tasktype.

Module Roster.
Record t := Make {
  user_id : string;
  tasktype_id : string;
  start_time : string;
  end_time : string;
  timezone : option string;
  notes : option string
}.
End Roster.

(** ** Request models ([main.py]) *)

Module CreateUser.
Record t := Make {
  name : string;
  email : string;
  alias : option string;
  role : string;
  manager_id : option string;
  geo : option string;
  timezone : option string
}.
End CreateUser.

Module CreateTasktype.
Record t := Make {
  name : string;
  code : option string;
  description : option string;
  active : bool
}.
End CreateTasktype.

Module CreateRoster.
Record t := Make {
  user_id : string;
  tasktype_id : string;
  start_time : string;
  end_time : string;
  timezone : option string;
  notes : option string
}.
End CreateRoster.

(** An optional text as a stored value. *)
Definition optional (o : option string) : bson :=
  match o with
  | Some s => BStr s
  | None => BNull
  end.

#[export] Instance User_model : BaseModel User.t := fun u =>
  list_to_map
    [ ("name", BStr (User.name u));
      ("email", BStr (User.email u));
      ("alias", optional (User.alias u));
      ("role", BStr (User.role u));
      ("manager_id", optional (User.manager_id u));
      ("geo", optional (User.geo u));
      ("timezone", optional (User.timezone u));
      ("is_active", BBool (User.is_active u)) ].

#[export] Instance Tasktype_model : BaseModel Tasktype.t := fun t =>
  list_to_map
    [ ("name", BStr (Tasktype.name t));
      ("code", optional (Tasktype.code t));
      ("description", optional (Tasktype.description t));
      ("active", BBool (Tasktype.active t)) ].

#[export] Instance Roster_model : BaseModel Roster.t := fun r =>
  list_to_map
    [ ("user_id", BStr (Roster.user_id r));
      ("tasktype_id", BStr (Roster.tasktype_id r));
      ("start_time", BStr (Roster.start_time r));
      ("end_time", BStr (Roster.end_time r));
      ("timezone", optional (Roster.timezone r));
      ("notes", optional (Roster.notes r)) ].

(** [Literal["admin", "manager", "member"]] *)
Definition role_literal (r : string) : bool :=
  String.eqb r "admin" || String.eqb r "manager" || String.eqb r "member".

(** Truth value of an optional text in a condition: [None] and the empty
    text are false. *)
Definition truthy (o : option string) : bool :=
  match o with
  | Some s => negb (String.eqb s "")
  | None => false
  end.

(** [TasktypeSchema] built from the dumped payload: each field already has the type
    the schema asks for, so construction cannot fail. *)
Definition TasktypeSchema (payload : CreateTasktype.t) : Tasktype.t :=
  Tasktype.Make (CreateTasktype.name payload) (CreateTasktype.code payload)
    (CreateTasktype.description payload) (CreateTasktype.active payload).

(** [RosterSchema] built from the dumped payload: likewise. *)
Definition RosterSchema (payload : CreateRoster.t) : Roster.t :=
  Roster.Make (CreateRoster.user_id payload) (CreateRoster.tasktype_id payload)
    (CreateRoster.start_time payload) (CreateRoster.end_time payload)
    (CreateRoster.timezone payload) (CreateRoster.notes payload).

(** A listing's normalisation of a document: [d["id"] = str(d.pop("_id"))]. *)
Definition normalize (d : stored) : listed := Listed (_id d) (body d).

(** The detail texts of the three errors the handlers raise themselves. *)
Definition DuplicateEmail : exception := HTTPException 400 "Email already exists".
Definition DuplicateTasktype : exception :=
  HTTPException 400 "Task type with same name/code exists".
Definition EndNotAfterStart : exception :=
  HTTPException 400 "End time must be after start time".
Definition OverlapError : exception :=
  HTTPException 400 "Overlapping roster for this user".

(** ** The handlers ([main.py]) *)

Section Handlers.
Context `{Libraries}.

(** [datetime.fromisoformat(text)] inside a handler. *)
Definition parse_datetime (text : string) : M datetime :=
  match fromisoformat text with
  | Some d => ret d
  | None => raise ValueError
  end.

(** [a <= b] inside a handler. *)
Definition le_datetime (a b : datetime) : M bool :=
  match datetime_le a b with
  | Some r => ret r
  | None => raise TypeError
  end.

(** [UserSchema] built from the dumped payload: the email is validated as an
    [EmailStr], the role against the literal; [is_active] takes its default.
    A failed validation raises pydantic's [ValidationError]. *)
Definition UserSchema (payload : CreateUser.t) : outcome User.t :=
  match validate_email (CreateUser.email payload) with
  | Some e =>
      if role_literal (CreateUser.role payload)
      then Return (User.Make (CreateUser.name payload) e (CreateUser.alias payload)
                     (CreateUser.role payload) (CreateUser.manager_id payload)
                     (CreateUser.geo payload) (CreateUser.timezone payload) true)
      else Raise ValidationError
  | None => Raise ValidationError
  end.

Definition oid (id_str : string) : outcome ObjectId :=
  match ObjectId_of_str id_str with
  | Some o => Return o
  | None => Raise (HTTPException 400 "Invalid id format")
  end.

Definition create_user (payload : CreateUser.t) : M ObjectId :=
  data <- lift (UserSchema payload) ;;
  existing <- find_one "user" [Field "email" (Equals (BStr (User.email data)))] ;;
  match existing with
  | Some _ => raise DuplicateEmail
  | None =>
      inserted_id <- create_document "user" data ;;
      ret inserted_id
  end.

Definition list_users (role manager_id : option string) : M (list listed) :=
  let filt : filter := [] in
  let filt := if truthy role then (filt ++ [Field "role" (Equals (optional role))])%list else filt in
  let filt :=
    if truthy manager_id
    then (filt ++ [Field "manager_id" (Equals (optional manager_id))])%list
    else filt in
  users <- get_documents "user" filt ;;
  ret (map normalize users).

Definition create_tasktype (payload : CreateTasktype.t) : M ObjectId :=
  let data := TasktypeSchema payload in
  let alts : list filter := [[Field "name" (Equals (BStr (Tasktype.name data)))]] in
  let alts :=
    if truthy (Tasktype.code data)
    then (alts ++ [[Field "code" (Equals (optional (Tasktype.code data)))]])%list
    else alts in
  let filt : filter := [Or alts] in
  existing <- find_one "tasktype" filt ;;
  match existing with
  | Some _ => raise DuplicateTasktype
  | None =>
      inserted_id <- create_document "tasktype" data ;;
      ret inserted_id
  end.

Definition list_tasktypes (active : option bool) : M (list listed) :=
  let filt : filter := [] in
  let filt :=
    match active with
    | Some a => (filt ++ [Field "active" (Equals (BBool a))])%list
    | None => filt
    end in
  docs <- get_documents "tasktype" filt ;;
  ret (map normalize docs).

Definition create_roster (payload : CreateRoster.t) : M ObjectId :=
  start <- parse_datetime (CreateRoster.start_time payload) ;;
  end_ <- parse_datetime (CreateRoster.end_time payload) ;;
  not_after <- le_datetime end_ start ;;
  if (not_after : bool) then raise EndNotAfterStart else
  overlap <- find_one "roster"
    [ Field "user_id" (Equals (BStr (CreateRoster.user_id payload)));
      Or [[ Field "start_time" (Ops [(op_lt, BStr (CreateRoster.end_time payload))]);
            Field "end_time" (Ops [(op_gt, BStr (CreateRoster.start_time payload))]) ]] ] ;;
  match overlap with
  | Some _ => raise OverlapError
  | None =>
      let data := RosterSchema payload in
      inserted_id <- create_document "roster" data ;;
      ret inserted_id
  end.

Definition list_rosters (user_id date : option string) : M (list listed) :=
  let filt : filter := [] in
  let filt :=
    if truthy user_id then (filt ++ [Field "user_id" (Equals (optional user_id))])%list else filt in
  let filt :=
    match date with
    | Some d =>
        if truthy date then
          let day_start := d ++ "T00:00:00" in
          let day_end := d ++ "T23:59:59" in
          (filt ++ [Or [[ Field "start_time" (Ops [(op_lte, BStr day_end)]);
                          Field "end_time" (Ops [(op_gte, BStr day_start)]) ]]])%list
        else filt
    | None => filt
    end in
  docs <- get_documents "roster" filt ;;
  ret (map normalize docs).

End Handlers.

(** ** The remaining endpoints and the route table ([main.py]) *)

Definition read_root : list (string * string) := [("message", "Roster API running")].

(** [get_schema]: the value under ["collections"]. *)
Definition get_schema : list string := ["user"; "tasktype"; "roster"].

(** The diagnostics endpoint reads the process-wide store handle and the
    environment; both are inputs here. *)
Module Diagnostics.

(** What reading an attribute of the handle does: the attribute is missing,
    has a value, or reading it raises. *)
Inductive attribute :=
| Missing
| Value (v : string)
| Failing (message : string).

(** The store handle as the endpoint uses it: its [name] attribute, and
    [list_collection_names()], which returns the names or raises with a
    message. *)
Record handle := Handle {
  name : attribute;
  list_collection_names : string + list string
}.

(** The response dictionary. *)
Record response := Response {
  backend : string;
  database : string;
  database_url : option string;
  database_name : option string;
  connection_status : string;
  collections : list string
}.

Definition set_database (v : string) (r : response) : response :=
  Response (backend r) v (database_url r) (database_name r) (connection_status r) (collections r).
Definition set_database_url (v : string) (r : response) : response :=
  Response (backend r) (database r) (Some v) (database_name r) (connection_status r)
    (collections r).
Definition set_database_name (v : string) (r : response) : response :=
  Response (backend r) (database r) (database_url r) (Some v) (connection_status r)
    (collections r).
Definition set_connection_status (v : string) (r : response) : response :=
  Response (backend r) (database r) (database_url r) (database_name r) v (collections r).
Definition set_collections (v : list string) (r : response) : response :=
  Response (backend r) (database r) (database_url r) (database_name r) (connection_status r) v.

End Diagnostics.

Section TestDatabase.
Import Diagnostics.

(** The first 80 characters of a text: [text[:80]]. *)
Variable first80 : string -> string.

(** [test_database]: [db] is the module-level handle ([None] when the store
    was not initialised) and [DATABASE_URL] the environment variable.  The
    response is built up by assignments; an exception raised while reading
    the handle's name leaves the assignments made so far in place. *)
Definition test_database (db : option handle) (DATABASE_URL : option string) : response :=
  let response :=
    Response "✅ Running" "❌ Not Available" None None "Not Connected" [] in
  match db with
  | Some db =>
      let response := set_database "✅ Available" response in
      let response :=
        set_database_url (if truthy DATABASE_URL then "✅ Set" else "❌ Not Set") response in
      match name db with
      | Failing message => set_database ("❌ Error: " ++ first80 message) response
      | attr =>
          let response :=
            set_database_name
              (match attr with Value v => v | _ => "✅ Connected" end) response in
          let response := set_connection_status "Connected" response in
          match list_collection_names db with
          | inr names =>
              let response := set_collections names response in
              set_database "✅ Connected & Working" response
          | inl message =>
              set_database ("⚠️ Connected but Error: " ++ first80 message) response
          end
      end
  | None => set_database "⚠️ Available but not initialized" response
  end.

End TestDatabase.

(** The routes of the application that reach the store, and what each
    answers. *)
Inductive request :=
| PostUsers (payload : CreateUser.t)
| GetUsers (role manager_id : option string)
| PostTasktypes (payload : CreateTasktype.t)
| GetTasktypes (active : option bool)
| PostRosters (payload : CreateRoster.t)
| GetRosters (user_id date : option string).

Inductive response :=
| Created (r : outcome ObjectId)
| Listing (r : outcome (list listed)).

Section Routes.
Context `{Libraries}.

Definition serve (r : request) (st : Store) : Store * response :=
  match r with
  | PostUsers payload => let (st', o) := create_user payload st in (st', Created o)
  | GetUsers role manager_id => let (st', o) := list_users role manager_id st in (st', Listing o)
  | PostTasktypes payload => let (st', o) := create_tasktype payload st in (st', Created o)
  | GetTasktypes active => let (st', o) := list_tasktypes active st in (st', Listing o)
  | PostRosters payload => let (st', o) := create_roster payload st in (st', Created o)
  | GetRosters user_id date => let (st', o) := list_rosters user_id date st in (st', Listing o)
  end.

(** The store after a run of requests served one at a time: each handler
    runs to its end before the next one starts.  Runs in which the store
    calls of two handlers alternate are not runs of [serve_all]; [race]
    below is one. *)
Fixpoint serve_all (rs : list request) (st : Store) : Store :=
  match rs with
  | [] => st
  | r :: rs' => serve_all rs' (fst (serve r st))
  end.

End Routes.

(** ** The two store calls of a create handler

    A create handler calls the store twice: a lookup ([find_one]) and, when
    the lookup finds nothing, an insert ([create_document]).  The endpoints
    are plain functions, which the framework runs on worker threads, so the
    store calls of two requests can alternate.  Each handler is cut here at
    the point between its two calls. *)
Section StoreCalls.
Context `{Libraries}.

Definition create_user_lookup (payload : CreateUser.t) : M User.t :=
  data <- lift (UserSchema payload) ;;
  existing <- find_one "user" [Field "email" (Equals (BStr (User.email data)))] ;;
  match existing with
  | Some _ => raise DuplicateEmail
  | None => ret data
  end.

Definition create_user_insert (data : User.t) : M ObjectId :=
  inserted_id <- create_document "user" data ;;
  ret inserted_id.

Definition create_tasktype_lookup (payload : CreateTasktype.t) : M Tasktype.t :=
  let data := TasktypeSchema payload in
  let alts : list filter := [[Field "name" (Equals (BStr (Tasktype.name data)))]] in
  let alts :=
    if truthy (Tasktype.code data)
    then (alts ++ [[Field "code" (Equals (optional (Tasktype.code data)))]])%list
    else alts in
  let filt : filter := [Or alts] in
  existing <- find_one "tasktype" filt ;;
  match existing with
  | Some _ => raise DuplicateTasktype
  | None => ret data
  end.

Definition create_tasktype_insert (data : Tasktype.t) : M ObjectId :=
  inserted_id <- create_document "tasktype" data ;;
  ret inserted_id.

Definition create_roster_lookup (payload : CreateRoster.t) : M Roster.t :=
  start <- parse_datetime (CreateRoster.start_time payload) ;;
  end_ <- parse_datetime (CreateRoster.end_time payload) ;;
  not_after <- le_datetime end_ start ;;
  if (not_after : bool) then raise EndNotAfterStart else
  overlap <- find_one "roster"
    [ Field "user_id" (Equals (BStr (CreateRoster.user_id payload)));
      Or [[ Field "start_time" (Ops [(op_lt, BStr (CreateRoster.end_time payload))]);
            Field "end_time" (Ops [(op_gt, BStr (CreateRoster.start_time payload))]) ]] ] ;;
  match overlap with
  | Some _ => raise OverlapError
  | None => ret (RosterSchema payload)
  end.

Definition create_roster_insert (data : Roster.t) : M ObjectId :=
  inserted_id <- create_document "roster" data ;;
  ret inserted_id.

End StoreCalls.

(** Two requests whose store calls alternate: both lookups run, then both
    inserts (each only if its own lookup let it through).  The result is the
    store left behind and the outcome of each request. *)
Definition race {D} (lookup_a lookup_b : M D) (insert : D -> M ObjectId) (st : Store)
    : Store * (outcome ObjectId * outcome ObjectId) :=
  let (st1, a) := lookup_a st in
  let (st2, b) := lookup_b st1 in
  let (st3, ra) :=
    match a with
    | Return d => insert d st2
    | Raise e => (st2, Raise e)
    end in
  let (st4, rb) :=
    match b with
    | Return d => insert d st3
    | Raise e => (st3, Raise e)
    end in
  (st4, (ra, rb)).

(** ** A reference instance of the libraries

    A small instance of [Libraries] on which the handlers can be run: it reads
    the canonical fixed-width datetimes [YYYY-MM-DDTHH:MM:SS] (all of them
    offset-naive), plain lower-case addresses, and 24-digit hexadecimal
    identifiers, and refuses every other text.  It stands in for the Python
    libraries on the sample payloads further down, which they read the same
    way; the theorems do not depend on it. *)
Module Reference.

Definition digit (c : ascii) : option N :=
  let n := N_of_ascii c in
  if (48 <=? n)%N && (n <=? 57)%N then Some (n - 48)%N else None.

(** The decimal number written by the characters, most significant first. *)
Fixpoint number (cs : list ascii) (acc : N) : option N :=
  match cs with
  | [] => Some acc
  | c :: cs' =>
      match digit c with
      | Some d => number cs' (10 * acc + d)%N
      | None => None
      end
  end.

Definition leap (y : N) : bool :=
  ((y mod 4 =? 0) && negb (y mod 100 =? 0) || (y mod 400 =? 0))%N.

Definition days_in_month (y m : N) : N :=
  match m with
  | 2%N => if leap y then 29%N else 28%N
  | 4%N | 6%N | 9%N | 11%N => 30%N
  | _ => 31%N
  end.

(** Year, month, day, hour, minute, second. *)
Record naive := Naive { year : N; month : N; day : N; hour : N; minute : N; second : N }.

Definition to_seconds_key (d : naive) : list N :=
  [year d; month d; day d; hour d; minute d; second d].

Fixpoint lex_le (a b : list N) : bool :=
  match a, b with
  | [], _ => true
  | _ :: _, [] => false
  | x :: a', y :: b' => (x <? y)%N || ((x =? y)%N && lex_le a' b')
  end.

Definition naive_le (a b : naive) : option bool :=
  Some (lex_le (to_seconds_key a) (to_seconds_key b)).

Definition fromiso (text : string) : option naive :=
  match list_ascii_of_string text with
  | [y1; y2; y3; y4; "-"%char; m1; m2; "-"%char; d1; d2; "T"%char;
     h1; h2; ":"%char; n1; n2; ":"%char; s1; s2] =>
      match number [y1; y2; y3; y4] 0, number [m1; m2] 0, number [d1; d2] 0,
            number [h1; h2] 0, number [n1; n2] 0, number [s1; s2] 0 with
      | Some y, Some m, Some d, Some h, Some n, Some s =>
          if ((1 <=? y) && (1 <=? m) && (m <=? 12) && (1 <=? d) && (d <=? days_in_month y m)
              && (h <? 24) && (n <? 60) && (s <? 60))%N
          then Some (Naive y m d h n s)
          else None
      | _, _, _, _, _, _ => None
      end
  | _ => None
  end.

Definition lower_or_digit (c : ascii) : bool :=
  let n := N_of_ascii c in
  ((97 <=? n) && (n <=? 122) || (48 <=? n) && (n <=? 57))%N.

(** One or more labels of lower-case letters and digits, separated by
    single dots. *)
Fixpoint labels (cs : list ascii) (in_label : bool) (dots : nat) : option nat :=
  match cs with
  | [] => if in_label then Some dots else None
  | c :: cs' =>
      if lower_or_digit c then labels cs' true dots
      else if Ascii.eqb c "."%char && in_label then labels cs' false (S dots)
      else None
  end.

Fixpoint split_at (cs : list ascii) : option (list ascii * list ascii) :=
  match cs with
  | [] => None
  | c :: cs' =>
      if Ascii.eqb c "@"%char then Some ([], cs')
      else match split_at cs' with
           | Some (l, r) => Some (c :: l, r)
           | None => None
           end
  end.

(** [local@domain] with a dotted local part and a domain of at least two
    labels; such an address is already in normal form. *)
Definition email (text : string) : option string :=
  match split_at (list_ascii_of_string text) with
  | Some (l, r) =>
      match labels l false 0, labels r false 0 with
      | Some _, Some (S _) => Some text
      | _, _ => None
      end
  | None => None
  end.

Definition hex_digit (c : ascii) : option N :=
  let n := N_of_ascii c in
  if (48 <=? n)%N && (n <=? 57)%N then Some (n - 48)%N
  else if (97 <=? n)%N && (n <=? 102)%N then Some (n - 87)%N
  else if (65 <=? n)%N && (n <=? 70)%N then Some (n - 55)%N
  else None.

Fixpoint hex_number (cs : list ascii) (acc : N) : option N :=
  match cs with
  | [] => Some acc
  | c :: cs' =>
      match hex_digit c with
      | Some d => hex_number cs' (16 * acc + d)%N
      | None => None
      end
  end.

(** Exactly 24 hexadecimal digits. *)
Definition object_id (text : string) : option ObjectId :=
  if (String.length text =? 24)%nat
  then hex_number (list_ascii_of_string text) 0
  else None.

#[export] Instance libraries : Libraries := {
  datetime := naive;
  fromisoformat := fromiso;
  datetime_le := naive_le;
  validate_email := email;
  ObjectId_of_str := object_id
}.

End Reference.

(** ** A second instance, with UTC offsets

    The reference instance extended with offset-aware datetimes
    [YYYY-MM-DDTHH:MM:SS+HH:MM] (or [-HH:MM]).  Two aware datetimes compare
    as instants, two naive ones by their fields, and comparing a naive one
    with an aware one raises [TypeError]. *)
Module Offsets.

(** A datetime: its fields and, when aware, its offset east of UTC in
    minutes, kept as [offset + 1440] so that it is never negative. *)
Record t := Make { local : Reference.naive; east : option N }.

Definition days_before_year (y : N) : N :=
  (365 * (y - 1) + (y - 1) / 4 - (y - 1) / 100 + (y - 1) / 400)%N.

Fixpoint days_before_month (y : N) (m : nat) : N :=
  match m with
  | O => 0%N
  | S m' => (days_before_month y m' + Reference.days_in_month y (N.of_nat m))%N
  end.

(** Seconds from the start of year 1 to the local time shown. *)
Definition local_seconds (d : Reference.naive) : N :=
  ((days_before_year (Reference.year d)
    + days_before_month (Reference.year d) (N.to_nat (Reference.month d) - 1)
    + (Reference.day d - 1)) * 86400
   + Reference.hour d * 3600 + Reference.minute d * 60 + Reference.second d)%N.

Definition le (a b : t) : option bool :=
  match east a, east b with
  | None, None => Reference.naive_le (local a) (local b)
  | Some ea, Some eb =>
      Some (local_seconds (local a) + 60 * eb <=? local_seconds (local b) + 60 * ea)%N
  | _, _ => None
  end.

Definition offset (text : string) : option N :=
  match list_ascii_of_string text with
  | [sign; h1; h2; ":"%char; m1; m2] =>
      match Reference.number [h1; h2] 0, Reference.number [m1; m2] 0 with
      | Some h, Some m =>
          if ((h <? 24) && (m <? 60))%N then
            if Ascii.eqb sign "+"%char then Some (1440 + (60 * h + m))%N
            else if Ascii.eqb sign "-"%char then Some (1440 - (60 * h + m))%N
            else None
          else None
      | _, _ => None
      end
  | _ => None
  end.

Definition fromiso (text : string) : option t :=
  if (String.length text =? 19)%nat then
    match Reference.fromiso text with
    | Some d => Some (Make d None)
    | None => None
    end
  else
    match Reference.fromiso (substring 0 19 text), offset (substring 19 6 text) with
    | Some d, Some e => if (String.length text =? 25)%nat then Some (Make d (Some e)) else None
    | _, _ => None
    end.

#[export] Instance libraries : Libraries := {
  datetime := t;
  fromisoformat := fromiso;
  datetime_le := le;
  validate_email := Reference.email;
  ObjectId_of_str := Reference.object_id
}.

End Offsets.

(** * Vocabulary of the properties

    The predicates the theorems are stated with, and the sample payloads and
    stores the handlers are run on further down. *)

(** ** Predicates *)

(** The order the store compares texts in. *)
Definition str_lt (a b : string) : Prop := String.ltb a b = true.
Definition str_le (a b : string) : Prop := String.leb a b = true.

(** The value under a key is the given text. *)
Definition field_is (k : string) (v : string) (d : doc) : Prop := d !! k = Some (BStr v).
Definition field_isb (k : string) (v : string) (d : doc) : bool := holds (Equals (BStr v)) (d !! k).

(** A stored roster overlaps the candidate's interval, as texts. *)
Definition overlaps (p : CreateRoster.t) (d : doc) : Prop :=
  field_is "user_id" (CreateRoster.user_id p) d /\
  exists s e, field_is "start_time" s d /\ field_is "end_time" e d /\
    str_lt s (CreateRoster.end_time p) /\ str_lt (CreateRoster.start_time p) e.

Definition overlap_filter (p : CreateRoster.t) : filter :=
  [ Field "user_id" (Equals (BStr (CreateRoster.user_id p)));
    Or [[ Field "start_time" (Ops [(op_lt, BStr (CreateRoster.end_time p))]);
          Field "end_time" (Ops [(op_gt, BStr (CreateRoster.start_time p))]) ]] ].

(** The payload passes the two checks that precede the overlap query: both
    times parse, and the parsed end is not at or before the parsed start. *)
Definition passes_range_check `{Libraries} (p : CreateRoster.t) : Prop :=
  exists s e,
    fromisoformat (CreateRoster.start_time p) = Some s /\
    fromisoformat (CreateRoster.end_time p) = Some e /\
    datetime_le e s = Some false.

(** Some stored roster of the same user overlaps the candidate. *)
Definition has_overlap (p : CreateRoster.t) (st : Store) : Prop :=
  exists d, In d (collection "roster" st) /\ overlaps p (body d).

(** Requests served one after the other: each handler call runs on the store
    the previous one left, and every outcome is kept. *)
Fixpoint requests {A B} (h : A -> M B) (ps : list A) (st : Store) : Store * list (outcome B) :=
  match ps with
  | [] => (st, [])
  | p :: ps' =>
      let (st1, r) := h p st in
      let (st2, rs) := requests h ps' st1 in
      (st2, r :: rs)
  end.

(** Some stored user holds this very email text. *)
Definition email_taken (e : string) (st : Store) : Prop :=
  exists u, In u (collection "user" st) /\ field_is "email" e (body u).

(** A stored task type has the candidate's name, or the code the candidate
    provides (a code that is absent or empty counts as not provided). *)
Definition tasktype_clash (p : CreateTasktype.t) (d : doc) : Prop :=
  field_is "name" (CreateTasktype.name p) d \/
  exists c, CreateTasktype.code p = Some c /\ c <> "" /\ field_is "code" c d.

(** The filter the handler ends up with. *)
Definition tasktype_filter (p : CreateTasktype.t) : filter :=
  let alts : list filter := [[Field "name" (Equals (BStr (CreateTasktype.name p)))]] in
  [Or (if truthy (CreateTasktype.code p)
       then (alts ++ [[Field "code" (Equals (optional (CreateTasktype.code p)))]])%list
       else alts)].

(** A create handler on a given store either writes one document to its
    collection under the store's next identifier and returns that identifier,
    or raises and leaves the store as it was. *)
Definition one_write_or_none (name : string) (h : M ObjectId) (st : Store) : Prop :=
  (exists d, h st = (insert_document name d st, Return (next_oid st))) \/
  (exists e, h st = (st, Raise e)).

(** What an optional text parameter asks of a document: nothing when the
    parameter is absent or empty, otherwise that the field is that text. *)
Definition wanted (k : string) (o : option string) (d : doc) : bool :=
  match o with
  | Some v => if String.eqb v "" then true else field_isb k v d
  | None => true
  end.

(** The roster's interval meets the day's window, as texts:
    [start_time <= dayT23:59:59] and [end_time >= dayT00:00:00]. *)
Definition in_day_window (date : string) (d : doc) : bool :=
  match d !! "start_time", d !! "end_time" with
  | Some (BStr s), Some (BStr e) =>
      String.leb s (date ++ "T23:59:59") && String.leb (date ++ "T00:00:00") e
  | _, _ => false
  end.

(** What the [date] parameter asks of a roster. *)
Definition wanted_day (o : option string) (d : doc) : bool :=
  match o with
  | Some date => if String.eqb date "" then true else in_day_window date d
  | None => true
  end.

(** The value under a key is the given boolean. *)
Definition flag_isb (k : string) (b : bool) (d : doc) : bool :=
  holds (Equals (BBool b)) (d !! k).

(** ** Uniqueness and disjointness in the store *)

(** No two documents of the list hold the same text under the key, among the
    texts [P] selects. *)
Definition distinct_field (P : string -> Prop) (k : string) (l : list stored) : Prop :=
  forall i j u v e,
    l !! i = Some u -> l !! j = Some v -> P e ->
    field_is k e (body u) -> field_is k e (body v) -> i = j.

(** No two stored users hold the same email. *)
Definition emails_unique (st : Store) : Prop :=
  distinct_field (fun _ => True) "email" (collection "user" st).

(** No two stored task types hold the same name. *)
Definition names_unique (st : Store) : Prop :=
  distinct_field (fun _ => True) "name" (collection "tasktype" st).

(** No two stored task types hold the same non-empty code. *)
Definition codes_unique (st : Store) : Prop :=
  distinct_field (fun c => c <> "") "code" (collection "tasktype" st).

(** Two roster documents of one user whose intervals overlap, as texts. *)
Definition rosters_overlap (a b : doc) : Prop :=
  exists u s1 e1 s2 e2,
    field_is "user_id" u a /\ field_is "user_id" u b /\
    field_is "start_time" s1 a /\ field_is "end_time" e1 a /\
    field_is "start_time" s2 b /\ field_is "end_time" e2 b /\
    str_lt s1 e2 /\ str_lt s2 e1.

(** No two stored rosters of one user overlap. *)
Definition no_overlaps (st : Store) : Prop :=
  forall i j a b,
    collection "roster" st !! i = Some a -> collection "roster" st !! j = Some b ->
    i <> j -> ~ rosters_overlap (body a) (body b).

(** Some stored task type clashes with the candidate. *)
Definition tasktype_taken (p : CreateTasktype.t) (st : Store) : Prop :=
  exists d, In d (collection "tasktype" st) /\ tasktype_clash p (body d).

(** The collection a route works on. *)
Definition target (r : request) : string :=
  match r with
  | PostUsers _ | GetUsers _ _ => "user"
  | PostTasktypes _ | GetTasktypes _ => "tasktype"
  | PostRosters _ | GetRosters _ _ => "roster"
  end.


(** What a listing adds for a document that has just been appended to the
    collection: the document under its identifier if the filter keeps it,
    nothing otherwise. *)
Definition listed_if (keeps : bool) (i : ObjectId) (d : doc) : list listed :=
  if keeps then [Listed i d] else [].

(** Every stored user has a role of the literal and is active. *)
Definition users_valid (st : Store) : Prop :=
  forall u, In u (collection "user" st) ->
    (exists r, field_is "role" r (body u) /\ role_literal r = true) /\
    body u !! "is_active" = Some (BBool true).

(** Every stored roster has times that parse, the end after the start. *)
Definition rosters_ordered `{Libraries} (st : Store) : Prop :=
  forall r, In r (collection "roster" st) ->
    exists s e ds de,
      field_is "start_time" s (body r) /\ field_is "end_time" e (body r) /\
      fromisoformat s = Some ds /\ fromisoformat e = Some de /\
      datetime_le de ds = Some false.


(** ** Sample payloads and stores *)

Definition empty_store : Store := MkStore ∅ 0%N.

(** Ann's roster on 15 January 2024, 10:00 to 11:00. *)
Definition morning : CreateRoster.t :=
  CreateRoster.Make "ann" "dev" "2024-01-15T10:00:00" "2024-01-15T11:00:00" None None.

(** A payload whose end lies before its start, inside [morning]. *)
Definition inverted : CreateRoster.t :=
  CreateRoster.Make "ann" "dev" "2024-01-15T10:30:00" "2024-01-15T10:15:00" None None.

(** The hour right after [morning]. *)
Definition next_hour : CreateRoster.t :=
  CreateRoster.Make "ann" "dev" "2024-01-15T11:00:00" "2024-01-15T12:00:00" None None.

(** A roster on the following day. *)
Definition next_day : CreateRoster.t :=
  CreateRoster.Make "ann" "dev" "2024-01-16T09:00:00" "2024-01-16T10:00:00" None None.

Definition unparsable : CreateRoster.t :=
  CreateRoster.Make "ann" "dev" "tomorrow at ten" "2024-01-15T11:00:00" None None.

(** The store after [morning] was created in the empty store. *)
Definition one_roster : Store := fst (create_roster (H := Reference.libraries) morning empty_store).

(** The store after [morning] and [next_day]. *)
Definition two_rosters : Store := fst (create_roster (H := Reference.libraries) next_day one_roster).

Definition ann : CreateUser.t :=
  CreateUser.Make "Ann" "ann@corp.org" None "manager" None None None.
Definition bob : CreateUser.t :=
  CreateUser.Make "Bob" "bob@corp.org" None "member" (Some "not-an-id") None None.
Definition eve : CreateUser.t :=
  CreateUser.Make "Eve" "eve@corp.org" None "superuser" None None None.

Definition validated (p : CreateUser.t) : User.t :=
  User.Make (CreateUser.name p) (CreateUser.email p) (CreateUser.alias p) (CreateUser.role p)
    (CreateUser.manager_id p) (CreateUser.geo p) (CreateUser.timezone p) true.

(** The store after [bob] was created in the empty store. *)
Definition one_user : Store := fst (create_user (H := Reference.libraries) bob empty_store).

(** A roster whose times carry UTC offsets: it starts at 08:00 UTC and ends
    at 09:30 UTC, while its start text is above its end text. *)
Definition zoned : CreateRoster.t :=
  CreateRoster.Make "ann" "dev" "2024-01-15T10:00:00+02:00" "2024-01-15T09:30:00+00:00"
    None None.

(** A roster with a naive start and an aware end. *)
Definition mixed : CreateRoster.t :=
  CreateRoster.Make "ann" "dev" "2024-01-15T10:00:00" "2024-01-15T11:00:00+00:00" None None.

(** A roster that ends at the midnight starting 15 January. *)
Definition overnight : CreateRoster.t :=
  CreateRoster.Make "ann" "dev" "2024-01-14T22:00:00" "2024-01-15T00:00:00" None None.

(** A roster that starts half a second before the end of 15 January. *)
Definition late : CreateRoster.t :=
  CreateRoster.Make "ann" "dev" "2024-01-15T23:59:59.500" "2024-01-16T01:00:00" None None.

(** A store holding [overnight] and [late]. *)
Definition edge_rosters : Store :=
  insert_document "roster" (model_dump (RosterSchema late))
    (insert_document "roster" (model_dump (RosterSchema overnight)) empty_store).

Definition development : CreateTasktype.t :=
  CreateTasktype.Make "Development" (Some "DEV") None true.
Definition review : CreateTasktype.t :=
  CreateTasktype.Make "Review" (Some "") None false.

(** A second payload with Bob's email. *)
Definition bob_twin : CreateUser.t :=
  CreateUser.Make "Robert" "bob@corp.org" None "manager" None None None.

(** A second payload with the name of [development], under another code. *)
Definition development_twin : CreateTasktype.t :=
  CreateTasktype.Make "Development" (Some "DEV2") None true.

(** Ann's roster from 10:30 to 11:30, overlapping [morning]. *)
Definition midmorning : CreateRoster.t :=
  CreateRoster.Make "ann" "qa" "2024-01-15T10:30:00" "2024-01-15T11:30:00" None None.

(** A run of requests over all six routes, with two rejected creations. *)
Definition busy_day : list request :=
  [ PostUsers ann; PostUsers bob; PostUsers ann; GetUsers (Some "manager") None;
    PostTasktypes development; PostTasktypes review; PostTasktypes development;
    GetTasktypes (Some true);
    PostRosters morning; PostRosters next_hour; PostRosters inverted; PostRosters morning;
    GetRosters (Some "ann") (Some "2024-01-15") ].


(** * Properties *)

(** Runs a handler's monadic steps as far as the values at hand decide them. *)
Ltac run_handler :=
  cbv beta iota zeta delta
    [bind ret raise lift parse_datetime le_datetime find_one create_document get_documents].

(** ** Text order *)

Lemma str_lt_irrefl (a : string) : ~ str_lt a a.
Proof.
  unfold str_lt, String.ltb. intros Hlt.
  pose proof (String.compare_antisym a a) as Hanti.
  destruct (String.compare a a); simpl in Hanti; congruence.
Qed.

(** ** The store's operations *)

Lemma find_Some_iff {A} (P : A -> bool) (l : list A) :
  (exists x, List.find P l = Some x) <-> exists x, In x l /\ P x = true.
Proof.
  split.
  - intros [x Hx]. exists x. by apply List.find_some in Hx.
  - intros [x [Hin HP]]. destruct (List.find P l) as [y|] eqn:Hf; [by exists y|].
    pose proof (List.find_none P l Hf x Hin). congruence.
Qed.

Lemma collection_insert_same (name : string) (d : doc) (st : Store) :
  collection name (insert_document name d st)
  = (collection name st ++ [Stored (next_oid st) d])%list.
Proof. unfold collection at 1, insert_document. simpl. by rewrite lookup_insert_eq. Qed.

Lemma collection_insert_other (name other : string) (d : doc) (st : Store) :
  name <> other ->
  collection other (insert_document name d st) = collection other st.
Proof.
  intros Hne. unfold collection, insert_document. simpl. by rewrite lookup_insert_ne.
Qed.

Lemma insert_document_changes (name : string) (d : doc) (st : Store) :
  insert_document name d st <> st.
Proof.
  intros Heq. apply (f_equal next_oid) in Heq. simpl in Heq. lia.
Qed.

(** ** What the handlers' filters select *)

Lemma field_isb_spec (k v : string) (d : doc) : field_isb k v d = true <-> field_is k v d.
Proof.
  unfold field_isb, field_is, holds.
  destruct (d !! k) as [[| b | s]|]; simpl; try (split; [discriminate | congruence]).
  rewrite String.eqb_eq. split; congruence.
Qed.

Lemma matches_equals (k v : string) (d : doc) :
  matches [Field k (Equals (BStr v))] d = field_isb k v d.
Proof. unfold matches. simpl. by rewrite andb_true_r. Qed.

Lemma matches_app (f g : filter) (d : doc) :
  matches (f ++ g)%list d = matches f d && matches g d.
Proof. apply forallb_app. Qed.

Lemma matches_or (alts : list filter) (d : doc) :
  matches [Or alts] d = existsb (fun f => matches f d) alts.
Proof. unfold matches. simpl. by rewrite andb_true_r. Qed.

Lemma matches_overlap_filter (p : CreateRoster.t) (d : doc) :
  matches (overlap_filter p) d = true <-> overlaps p d.
Proof.
  unfold matches, overlap_filter, overlaps, field_is, str_lt. simpl.
  destruct (d !! "user_id") as [[| b | u]|]; simpl;
    try (split; [discriminate | intros [? _]; congruence]).
  destruct (d !! "start_time") as [[| b | s]|]; simpl;
    try (rewrite andb_false_r; split; [discriminate | intros [_ (? & ? & ? & _)]; congruence]).
  destruct (d !! "end_time") as [[| b | e]|]; simpl;
    try (rewrite !andb_false_r; split;
         [discriminate | intros [_ (? & ? & _ & ? & _)]; congruence]).
  rewrite !andb_true_r, orb_false_r, !andb_true_iff, String.eqb_eq. split.
  - intros [-> [Hs He]]. split; [done|]. by exists s, e.
  - intros [Hu (s' & e' & Hs & He & Hlt1 & Hlt2)].
    inversion Hu; inversion Hs; inversion He; subst. done.
Qed.

(** ** Roster creation *)

Section RosterCreation.
Context `{Libraries}.

Lemma find_overlap_Some (p : CreateRoster.t) (st : Store) :
  (exists d, List.find (fun d => matches (overlap_filter p) (body d)) (collection "roster" st) = Some d)
  <-> has_overlap p st.
Proof.
  rewrite find_Some_iff. unfold has_overlap.
  split; intros [d [Hin Hm]]; exists d; split; try done; by apply matches_overlap_filter.
Qed.

(** The handler after its two parses and its comparison have succeeded. *)
Lemma create_roster_checked (p : CreateRoster.t) (st : Store) (s e : datetime) :
  fromisoformat (CreateRoster.start_time p) = Some s ->
  fromisoformat (CreateRoster.end_time p) = Some e ->
  datetime_le e s = Some false ->
  create_roster p st =
    match List.find (fun d => matches (overlap_filter p) (body d)) (collection "roster" st) with
    | Some _ => (st, Raise OverlapError)
    | None => (insert_document "roster" (model_dump (RosterSchema p)) st, Return (next_oid st))
    end.
Proof.
  intros Hs He Hle.
  unfold create_roster. fold (overlap_filter p). run_handler.
  rewrite Hs. run_handler. rewrite He. run_handler. rewrite Hle. run_handler.
  by destruct (List.find _ _).
Qed.

(** Whatever the handler does, it got there through the checks or raised
    one of their exceptions. *)
Lemma create_roster_cases (p : CreateRoster.t) (st : Store) :
  passes_range_check p \/
  create_roster p st = (st, Raise ValueError) \/
  create_roster p st = (st, Raise TypeError) \/
  create_roster p st = (st, Raise EndNotAfterStart).
Proof.
  unfold passes_range_check, create_roster. run_handler.
  destruct (fromisoformat (CreateRoster.start_time p)) as [s|] eqn:Hs;
    run_handler; [|right; left; reflexivity].
  destruct (fromisoformat (CreateRoster.end_time p)) as [e|] eqn:He;
    run_handler; [|right; left; reflexivity].
  destruct (datetime_le e s) as [[|]|] eqn:Hle; run_handler.
  - right; right; right; reflexivity.
  - left. by exists s, e.
  - right; right; left; reflexivity.
Qed.

(** C1, as the code has it: roster creation fails with the overlap error
    exactly when the payload passes the parse and end-after-start checks and
    some stored roster of the same user has [start_time < candidate.end_time]
    and [end_time > candidate.start_time] as texts; it is accepted (one
    roster written, its identifier returned) exactly when the payload passes
    those checks and no stored roster overlaps; a stored roster that only
    touches the candidate at an endpoint does not overlap it. *)
Theorem create_roster_overlap (p : CreateRoster.t) (st : Store) :
  (snd (create_roster p st) = Raise OverlapError
     <-> passes_range_check p /\ has_overlap p st) /\
  ((exists i, snd (create_roster p st) = Return i)
     <-> passes_range_check p /\ ~ has_overlap p st) /\
  (passes_range_check p -> ~ has_overlap p st ->
     create_roster p st
     = (insert_document "roster" (model_dump (RosterSchema p)) st, Return (next_oid st))) /\
  (forall d, field_is "end_time" (CreateRoster.start_time p) d \/
             field_is "start_time" (CreateRoster.end_time p) d ->
             ~ overlaps p d).
Proof.
  assert (Hpass : passes_range_check p ->
            (has_overlap p st -> create_roster p st = (st, Raise OverlapError)) /\
            (~ has_overlap p st -> create_roster p st
               = (insert_document "roster" (model_dump (RosterSchema p)) st,
                  Return (next_oid st)))).
  { intros (s & e & Hs & He & Hle).
    rewrite (create_roster_checked p st s e Hs He Hle).
    split.
    - intros Hov. apply find_overlap_Some in Hov as [d ->]. done.
    - intros Hno. destruct (List.find _ _) as [d|] eqn:Hf; [|done].
      exfalso. apply Hno, find_overlap_Some. by exists d. }
  assert (Hdec : has_overlap p st \/ ~ has_overlap p st).
  { destruct (List.find (fun d => matches (overlap_filter p) (body d)) (collection "roster" st))
      as [d|] eqn:Hf.
    - left. apply find_overlap_Some. by exists d.
    - right. intros Hov. apply find_overlap_Some in Hov as [d Hd]. congruence. }
  assert (Hfailed :
            create_roster p st = (st, Raise ValueError) \/
            create_roster p st = (st, Raise TypeError) \/
            create_roster p st = (st, Raise EndNotAfterStart) ->
            snd (create_roster p st) <> Raise OverlapError /\
            forall i, snd (create_roster p st) <> Return i).
  { intros [Hr | [Hr | Hr]]; rewrite Hr; simpl; split; try intros i; discriminate. }
  split; [|split; [|split]].
  - split.
    + intros Hres.
      destruct (create_roster_cases p st) as [Hp | Hr].
      * split; [done|]. destruct Hdec as [Hov | Hno]; [done|].
        destruct (Hpass Hp) as [_ Hok]. rewrite (Hok Hno) in Hres. simpl in Hres. discriminate.
      * by destruct (Hfailed Hr) as [Hne _].
    + intros [Hp Hov]. destruct (Hpass Hp) as [Hfail _]. by rewrite (Hfail Hov).
  - split.
    + intros [i Hi].
      destruct (create_roster_cases p st) as [Hp | Hr].
      * split; [done|]. intros Hov.
        destruct (Hpass Hp) as [Hfail _]. rewrite (Hfail Hov) in Hi. simpl in Hi. discriminate.
      * destruct (Hfailed Hr) as [_ Hne]. by destruct (Hne i).
    + intros [Hp Hno]. destruct (Hpass Hp) as [_ Hok]. rewrite (Hok Hno). simpl. by eexists.
  - intros Hp Hno. by apply Hpass.
  - intros d [Hend | Hstart] [_ (s & e & Hs & He & Hlt1 & Hlt2)]; unfold field_is in *.
    + rewrite Hend in He. inversion He; subst. by apply str_lt_irrefl in Hlt2.
    + rewrite Hstart in Hs. inversion Hs; subst. by apply str_lt_irrefl in Hlt1.
Qed.

(** C2: when both times parse and the parsed end is at or before the parsed
    start, creation raises the 400 error "End time must be after start time"
    and leaves the store as it was, whatever the store holds (the check comes
    before the overlap query). *)
Theorem create_roster_end_not_after_start (p : CreateRoster.t) (st : Store) (s e : datetime) :
  fromisoformat (CreateRoster.start_time p) = Some s ->
  fromisoformat (CreateRoster.end_time p) = Some e ->
  datetime_le e s = Some true ->
  create_roster p st = (st, Raise (HTTPException 400 "End time must be after start time")) /\
  status_code_of (snd (create_roster p st)) = 400 /\
  detail_of (snd (create_roster p st)) = Some "End time must be after start time".
Proof.
  intros Hs He Hle.
  assert (Hrun : create_roster p st = (st, Raise EndNotAfterStart)).
  { unfold create_roster. run_handler.
    rewrite Hs. run_handler. rewrite He. run_handler. rewrite Hle. by run_handler. }
  rewrite Hrun. done.
Qed.

End RosterCreation.

(** ** User creation *)

Section UserCreation.
Context `{Libraries}.

Lemma find_email_Some (e : string) (st : Store) :
  (exists u, List.find (fun u => matches [Field "email" (Equals (BStr e))] (body u))
               (collection "user" st) = Some u)
  <-> email_taken e st.
Proof.
  rewrite find_Some_iff. unfold email_taken.
  split; intros [u [Hin Hm]]; exists u; split; try done;
    rewrite matches_equals in *; by apply field_isb_spec.
Qed.

Lemma create_user_valid (p : CreateUser.t) (data : User.t) (st : Store) :
  UserSchema p = Return data ->
  create_user p st =
    match List.find (fun u => matches [Field "email" (Equals (BStr (User.email data)))] (body u))
            (collection "user" st) with
    | Some _ => (st, Raise DuplicateEmail)
    | None => (insert_document "user" (model_dump data) st, Return (next_oid st))
    end.
Proof.
  intros Hv. unfold create_user. rewrite Hv. run_handler. by destruct (List.find _ _).
Qed.

Lemma create_user_invalid (p : CreateUser.t) (e : exception) (st : Store) :
  UserSchema p = Raise e -> create_user p st = (st, Raise e).
Proof. intros Hv. unfold create_user. rewrite Hv. by run_handler. Qed.

Lemma create_user_fresh (p : CreateUser.t) (data : User.t) (st : Store) :
  UserSchema p = Return data -> ~ email_taken (User.email data) st ->
  create_user p st = (insert_document "user" (model_dump data) st, Return (next_oid st)).
Proof.
  intros Hv Hno. rewrite (create_user_valid p data st Hv).
  destruct (List.find _ _) as [u|] eqn:Hf; [|done].
  exfalso. apply Hno, find_email_Some. by exists u.
Qed.

Lemma create_user_taken (p : CreateUser.t) (data : User.t) (st : Store) :
  UserSchema p = Return data -> email_taken (User.email data) st ->
  create_user p st = (st, Raise DuplicateEmail).
Proof.
  intros Hv Htaken. rewrite (create_user_valid p data st Hv).
  by apply find_email_Some in Htaken as [u ->].
Qed.

Lemma email_taken_dec (e : string) (st : Store) : email_taken e st \/ ~ email_taken e st.
Proof.
  destruct (List.find (fun u => matches [Field "email" (Equals (BStr e))] (body u))
              (collection "user" st)) as [u|] eqn:Hf.
  - left. apply find_email_Some. by exists u.
  - right. intros Ht. apply find_email_Some in Ht as [u Hu]. congruence.
Qed.

Lemma dumped_email (data : User.t) : model_dump data !! "email" = Some (BStr (User.email data)).
Proof. reflexivity. Qed.

(** After a user is written, the emails taken are the old ones and the new one. *)
Lemma email_taken_insert (e : string) (data : User.t) (st : Store) :
  email_taken e (insert_document "user" (model_dump data) st)
  <-> email_taken e st \/ e = User.email data.
Proof.
  unfold email_taken. rewrite collection_insert_same. split.
  - intros [u [Hin Hf]]. apply in_app_iff in Hin as [Hin | [<- | []]].
    + left. by exists u.
    + right. unfold field_is in Hf. simpl in Hf. rewrite dumped_email in Hf. congruence.
  - intros [[u [Hin Hf]] | ->].
    + exists u. split; [|done]. apply in_app_iff. by left.
    + eexists. split; [apply in_app_iff; right; by left|]. apply dumped_email.
Qed.

(** Valid payloads with pairwise distinct emails, none of them taken, served
    in a row: each one succeeds, and the identifiers returned are the
    successive identifiers of the store, starting from its next one. *)
Lemma create_users_distinct (ps : list CreateUser.t) (ds : list User.t) :
  Forall2 (fun p d => UserSchema p = Return d) ps ds ->
  List.NoDup (map User.email ds) ->
  forall st, (forall d, In d ds -> ~ email_taken (User.email d) st) ->
  exists ids, snd (requests create_user ps st) = map Return ids /\
              List.NoDup ids /\ Forall (fun i => (next_oid st <= i)%N) ids.
Proof.
  induction 1 as [| p d ps ds Hv Hall IH]; intros Hnd st Hfree.
  - exists []. simpl. repeat split; constructor.
  - simpl in Hnd. apply List.NoDup_cons_iff in Hnd as [Hnotin Hnd].
    simpl. rewrite (create_user_fresh p d st Hv); [|apply Hfree; by left].
    destruct (IH Hnd (insert_document "user" (model_dump d) st)) as (ids & Hres & Hids & Hge).
    { intros d' Hin Ht. apply email_taken_insert in Ht as [Ht | Heq].
      - by apply (Hfree d'); [right|].
      - apply Hnotin. rewrite <- Heq. by apply in_map. }
    destruct (requests create_user ps _) as [st2 rs]. simpl in *.
    exists (next_oid st :: ids). split; [by rewrite Hres|]. split.
    + apply List.NoDup_cons_iff. split; [|done]. intros Hin.
      rewrite List.Forall_forall in Hge. apply Hge in Hin. lia.
    + constructor; [lia|]. eapply List.Forall_impl; [|exact Hge]. simpl. intros. lia.
Qed.

(** C4: for a payload the schema accepts, creation fails with the 400 error
    "Email already exists" exactly when a stored user holds the identical
    email text (the text the schema instance holds, compared character by
    character), and otherwise writes the user and returns the generated
    identifier; accepted payloads with pairwise distinct emails, none of them
    stored yet, all succeed and receive pairwise distinct identifiers. *)
Theorem create_user_duplicate
    (p : CreateUser.t) (data : User.t) (st : Store)
    (ps : list CreateUser.t) (ds : list User.t) :
  UserSchema p = Return data ->
  Forall2 (fun p d => UserSchema p = Return d) ps ds ->
  (snd (create_user p st) = Raise (HTTPException 400 "Email already exists")
     <-> email_taken (User.email data) st) /\
  (~ email_taken (User.email data) st ->
     create_user p st = (insert_document "user" (model_dump data) st, Return (next_oid st))) /\
  (List.NoDup (map User.email ds) ->
   (forall d, In d ds -> ~ email_taken (User.email d) st) ->
   exists ids, snd (requests create_user ps st) = map Return ids /\
               length ids = length ps /\ List.NoDup ids).
Proof.
  intros Hv Hall. split; [|split].
  - split.
    + intros Hres. destruct (email_taken_dec (User.email data) st) as [Ht | Hno]; [done|].
      rewrite (create_user_fresh p data st Hv Hno) in Hres. simpl in Hres. discriminate.
    + intros Ht. by rewrite (create_user_taken p data st Hv Ht).
  - by apply create_user_fresh.
  - intros Hnd Hfree.
    destruct (create_users_distinct ps ds Hall Hnd st Hfree) as (ids & Hres & Hids & _).
    exists ids. split; [done|]. split; [|done].
    apply (f_equal (@length _)) in Hres. rewrite length_map in Hres. rewrite <- Hres.
    clear. revert st. induction ps as [|q ps IH]; intros st; [done|].
    simpl. destruct (create_user q st) as [st1 r].
    specialize (IH st1). destruct (requests create_user ps st1). simpl in *. by rewrite IH.
Qed.

(** C8, what the code does: a role outside the literal makes the schema raise
    pydantic's [ValidationError] inside the handler; nothing catches it, so
    the response is a 500 without detail, not a 400.  No user is written. *)
Theorem create_user_bad_role (p : CreateUser.t) (st : Store) :
  role_literal (CreateUser.role p) = false ->
  create_user p st = (st, Raise ValidationError) /\
  status_code_of (snd (create_user p st)) = 500 /\
  detail_of (snd (create_user p st)) = None.
Proof.
  intros Hrole.
  assert (Hv : UserSchema p = Raise ValidationError).
  { unfold UserSchema. rewrite Hrole. by destruct (validate_email _). }
  by rewrite (create_user_invalid p _ st Hv).
Qed.

End UserCreation.

(** ** Task type creation *)

Lemma matches_tasktype_filter (p : CreateTasktype.t) (d : doc) :
  matches (tasktype_filter p) d = true <-> tasktype_clash p d.
Proof.
  unfold tasktype_filter, tasktype_clash, truthy. rewrite matches_or.
  destruct (CreateTasktype.code p) as [c|].
  - destruct (String.eqb_spec c "") as [-> | Hne]; cbn [negb app existsb optional];
      rewrite ?matches_equals, ?orb_false_r.
    + rewrite field_isb_spec.
      split; [by left | intros [Hn | (c & [= <-] & Hne & _)]; done].
    + rewrite orb_true_iff, !field_isb_spec. split.
      * intros [Hn | Hc]; [by left | right; by exists c].
      * intros [Hn | (c' & [= <-] & _ & Hc)]; [by left | by right].
  - cbn [existsb]. rewrite matches_equals, orb_false_r, field_isb_spec.
    split; [by left | intros [Hn | (c & Hc & _)]; [done | discriminate]].
Qed.

Lemma create_tasktype_run (p : CreateTasktype.t) (st : Store) :
  create_tasktype p st =
    match List.find (fun d => matches (tasktype_filter p) (body d)) (collection "tasktype" st) with
    | Some _ => (st, Raise DuplicateTasktype)
    | None => (insert_document "tasktype" (model_dump (TasktypeSchema p)) st,
               Return (next_oid st))
    end.
Proof.
  unfold create_tasktype, tasktype_filter. run_handler. simpl Tasktype.code. simpl Tasktype.name.
  by destruct (List.find _ _).
Qed.

(** C5: task type creation fails with the 400 duplicate error exactly when
    some stored task type has the same name or, when the candidate provides a
    non-empty code, the same code; either match alone is enough.  Without a
    provided code only the name is looked at.  Otherwise the task type is
    written and its identifier returned. *)
Theorem create_tasktype_duplicate (p : CreateTasktype.t) (st : Store) :
  (snd (create_tasktype p st) = Raise (HTTPException 400 "Task type with same name/code exists")
     <-> exists d, In d (collection "tasktype" st) /\ tasktype_clash p (body d)) /\
  (truthy (CreateTasktype.code p) = false ->
     (snd (create_tasktype p st) = Raise (HTTPException 400 "Task type with same name/code exists")
        <-> exists d, In d (collection "tasktype" st) /\
                      field_is "name" (CreateTasktype.name p) (body d))) /\
  ((~ exists d, In d (collection "tasktype" st) /\ tasktype_clash p (body d)) ->
     create_tasktype p st
     = (insert_document "tasktype" (model_dump (TasktypeSchema p)) st, Return (next_oid st))).
Proof.
  assert (Hfind : (exists d, List.find (fun d => matches (tasktype_filter p) (body d))
                               (collection "tasktype" st) = Some d)
                  <-> exists d, In d (collection "tasktype" st) /\ tasktype_clash p (body d)).
  { rewrite find_Some_iff.
    split; intros [d [Hin Hm]]; exists d; split; try done; by apply matches_tasktype_filter. }
  assert (Hiff : snd (create_tasktype p st) = Raise DuplicateTasktype
                 <-> exists d, In d (collection "tasktype" st) /\ tasktype_clash p (body d)).
  { rewrite <- Hfind, create_tasktype_run.
    destruct (List.find _ _) as [d|]; simpl.
    - split; [by exists d | done].
    - split; [discriminate | by intros [d Hd]]. }
  split; [exact Hiff|]. split.
  - intros Hcode. unfold DuplicateTasktype in Hiff. rewrite Hiff.
    split; intros [d [Hin Hc]]; exists d; split; try done.
    + destruct Hc as [Hn | (c & Hc & Hne & _)]; [done|].
      rewrite Hc in Hcode. simpl in Hcode.
      apply String.eqb_neq in Hne. by rewrite Hne in Hcode.
    + by left.
  - intros Hno. rewrite create_tasktype_run.
    destruct (List.find _ _) as [d|] eqn:Hf; [|done].
    exfalso. apply Hno, Hfind. by exists d.
Qed.

(** ** One write or none *)

Section Atomicity.
Context `{Libraries}.

(** C6: each of the three create handlers either succeeds with exactly one
    document appended to its own collection (the other collections are as
    before) and returns that document's identifier, or raises with the store
    unchanged. *)
Theorem create_is_atomic (st : Store) :
  (forall p, one_write_or_none "user" (create_user p) st) /\
  (forall p, one_write_or_none "tasktype" (create_tasktype p) st) /\
  (forall p, one_write_or_none "roster" (create_roster p) st) /\
  (forall name d,
     collection name (insert_document name d st)
       = (collection name st ++ [Stored (next_oid st) d])%list /\
     (forall other, name <> other ->
        collection other (insert_document name d st) = collection other st) /\
     insert_document name d st <> st).
Proof.
  split; [|split; [|split]].
  - intros p. destruct (UserSchema p) as [data | e] eqn:Hv.
    + unfold one_write_or_none. rewrite (create_user_valid p data st Hv).
      destruct (List.find _ _); [right | left]; by eexists.
    + right. exists e. by apply create_user_invalid.
  - intros p. unfold one_write_or_none. rewrite create_tasktype_run.
    destruct (List.find _ _); [right | left]; by eexists.
  - intros p. destruct (create_roster_cases p st) as [(s & e & Hs & He & Hle) | Hr].
    + unfold one_write_or_none. rewrite (create_roster_checked p st s e Hs He Hle).
      destruct (List.find _ _); [right | left]; by eexists.
    + right. destruct Hr as [Hr | [Hr | Hr]]; rewrite Hr; by eexists.
  - intros name d. split; [apply collection_insert_same|]. split.
    + intros other Hne. by apply collection_insert_other.
    + apply insert_document_changes.
Qed.

End Atomicity.

(** ** Times that do not parse *)

Section Unparsable.
Context `{Libraries}.

(** C7, what the code does: when either time does not parse,
    [datetime.fromisoformat] raises [ValueError] inside the handler; nothing
    catches it, so the response is a 500 without detail, not a 400.  No
    roster is written. *)
Theorem create_roster_unparsable (p : CreateRoster.t) (st : Store) :
  fromisoformat (CreateRoster.start_time p) = None \/
  fromisoformat (CreateRoster.end_time p) = None ->
  create_roster p st = (st, Raise ValueError) /\
  status_code_of (snd (create_roster p st)) = 500 /\
  detail_of (snd (create_roster p st)) = None.
Proof.
  intros Hbad.
  assert (Hrun : create_roster p st = (st, Raise ValueError)).
  { unfold create_roster. run_handler.
    destruct (fromisoformat (CreateRoster.start_time p)) as [s|]; run_handler; [|done].
    destruct Hbad as [Hbad | Hbad]; [discriminate|].
    rewrite Hbad. by run_handler. }
  by rewrite Hrun.
Qed.

End Unparsable.

(** ** Listings *)

Lemma in_day_window_spec (date : string) (d : doc) :
  in_day_window date d = true <->
  exists s e, field_is "start_time" s d /\ field_is "end_time" e d /\
              str_le s (date ++ "T23:59:59") /\ str_le (date ++ "T00:00:00") e.
Proof.
  unfold in_day_window, field_is, str_le.
  destruct (d !! "start_time") as [[| b | s]|];
    try (split; [discriminate | intros (? & ? & ? & _); congruence]).
  destruct (d !! "end_time") as [[| b | e]|];
    try (split; [discriminate | intros (? & ? & _ & ? & _); congruence]).
  rewrite andb_true_iff. split.
  - intros [Hs He]. by exists s, e.
  - intros (s' & e' & [= <-] & [= <-] & Hs & He). done.
Qed.

Lemma matches_day_filter (date : string) (d : doc) :
  matches [Or [[ Field "start_time" (Ops [(op_lte, BStr (date ++ "T23:59:59"))]);
                 Field "end_time" (Ops [(op_gte, BStr (date ++ "T00:00:00"))]) ]]] d
  = in_day_window date d.
Proof.
  rewrite matches_or. unfold in_day_window, matches.
  cbn [existsb forallb matches_entry holds].
  destruct (d !! "start_time") as [[| b | s]|]; simpl; try done.
  destruct (d !! "end_time") as [[| b | e]|]; simpl; rewrite ?andb_false_r; try done.
  by rewrite !andb_true_r, orb_false_r.
Qed.

Lemma optional_filter (k : string) (o : option string) (f : filter) (d : doc) :
  matches (if truthy o then (f ++ [Field k (Equals (optional o))])%list else f) d
  = matches f d && wanted k o d.
Proof.
  unfold truthy, wanted. destruct o as [v|]; [|by rewrite andb_true_r].
  destruct (String.eqb v ""); simpl negb; cbv iota; [by rewrite andb_true_r|].
  cbn [optional]. by rewrite matches_app, matches_equals.
Qed.

Lemma list_users_selects (role manager_id : option string) (st : Store) :
  list_users role manager_id st =
    (st, Return (map normalize
                   (List.filter (fun u => wanted "role" role (body u) &&
                                          wanted "manager_id" manager_id (body u))
                      (collection "user" st)))).
Proof.
  unfold list_users. run_handler. do 3 f_equal.
  apply List.filter_ext. intros u. by rewrite !optional_filter.
Qed.

Lemma list_rosters_selects (user_id date : option string) (st : Store) :
  list_rosters user_id date st =
    (st, Return (map normalize
                   (List.filter (fun r => wanted "user_id" user_id (body r) &&
                                          wanted_day date (body r))
                      (collection "roster" st)))).
Proof.
  unfold list_rosters. run_handler. do 3 f_equal.
  apply List.filter_ext. intros r.
  assert (Hnil : forall d, matches [] d = true) by done.
  destruct date as [date|]; [|by rewrite optional_filter, Hnil, andb_true_r].
  destruct (truthy (Some date)) eqn:Hdate; unfold wanted_day; simpl in Hdate.
  - apply negb_true_iff in Hdate. rewrite Hdate.
    by rewrite matches_app, optional_filter, matches_day_filter, Hnil.
  - apply negb_false_iff in Hdate. rewrite Hdate.
    by rewrite optional_filter, Hnil, andb_true_r.
Qed.

Lemma list_tasktypes_selects (active : option bool) (st : Store) :
  list_tasktypes active st =
    (st, Return (map normalize
                   (List.filter (fun t => match active with
                                          | Some a => holds (Equals (BBool a)) (body t !! "active")
                                          | None => true
                                          end)
                      (collection "tasktype" st)))).
Proof.
  unfold list_tasktypes. run_handler. do 3 f_equal.
  apply List.filter_ext. intros t. destruct active as [a|]; [|done].
  unfold matches. simpl. by rewrite andb_true_r.
Qed.

Lemma filter_all {A} (l : list A) : List.filter (fun _ => true) l = l.
Proof. induction l as [|x l IH]; simpl; congruence. Qed.

Lemma flag_isb_spec (k : string) (b : bool) (d : doc) :
  flag_isb k b d = true <-> d !! k = Some (BBool b).
Proof.
  unfold flag_isb, holds.
  destruct (d !! k) as [[| b' | s]|]; simpl; try (split; [discriminate | congruence]).
  rewrite Bool.eqb_true_iff. split; congruence.
Qed.

(** C3: with a non-empty [date], the listing returns exactly the stored
    rosters with [start_time <= dateT23:59:59] and [end_time >= dateT00:00:00]
    as texts, in the store's order; with a non-empty [user_id] as well, exactly
    those of them whose [user_id] is that text. *)
Theorem list_rosters_by_date (date : string) (st : Store) :
  date <> "" ->
  list_rosters None (Some date) st
    = (st, Return (map normalize
                     (List.filter (fun r => in_day_window date (body r))
                        (collection "roster" st)))) /\
  (forall uid, uid <> "" ->
     list_rosters (Some uid) (Some date) st
       = (st, Return (map normalize
                        (List.filter (fun r => field_isb "user_id" uid (body r) &&
                                               in_day_window date (body r))
                           (collection "roster" st))))) /\
  (forall d, in_day_window date d = true <->
     exists s e, field_is "start_time" s d /\ field_is "end_time" e d /\
                 str_le s (date ++ "T23:59:59") /\ str_le (date ++ "T00:00:00") e).
Proof.
  intros Hdate. apply String.eqb_neq in Hdate.
  split; [|split].
  - rewrite list_rosters_selects. do 3 f_equal.
    apply List.filter_ext. intros r. unfold wanted_day. by rewrite Hdate.
  - intros uid Huid. apply String.eqb_neq in Huid.
    rewrite list_rosters_selects. do 3 f_equal.
    apply List.filter_ext. intros r. unfold wanted, wanted_day. by rewrite Hdate, Huid.
  - apply in_day_window_spec.
Qed.

(** C10: an empty [role], [manager_id] or [user_id] parameter gives the
    listing the omitted parameter gives: an empty [role] or [manager_id]
    alone lists every user, and an empty [user_id] alone lists every roster
    (with a date, every roster of that day), not the documents whose field
    is the empty text; [active=false] on task types is a filter of its own,
    returning exactly the task types whose [active] is false, where the
    omitted parameter lists them all. *)
Theorem empty_parameter_is_absent (st : Store) :
  (forall manager_id, list_users (Some "") manager_id st = list_users None manager_id st) /\
  (forall role, list_users role (Some "") st = list_users role None st) /\
  list_users (Some "") None st = (st, Return (map normalize (collection "user" st))) /\
  list_users None (Some "") st = (st, Return (map normalize (collection "user" st))) /\
  (forall date, list_rosters (Some "") date st = list_rosters None date st) /\
  list_rosters (Some "") None st = (st, Return (map normalize (collection "roster" st))) /\
  (forall date, date <> "" ->
     list_rosters (Some "") (Some date) st
     = (st, Return (map normalize
                      (List.filter (fun r => in_day_window date (body r))
                         (collection "roster" st))))) /\
  list_tasktypes (Some false) st
    = (st, Return (map normalize
                     (List.filter (fun t => flag_isb "active" false (body t))
                        (collection "tasktype" st)))) /\
  (forall t, flag_isb "active" false t = true <-> t !! "active" = Some (BBool false)) /\
  list_tasktypes None st = (st, Return (map normalize (collection "tasktype" st))).
Proof.
  split; [|split; [|split; [|split; [|split; [|split; [|split; [|split; [|split]]]]]]]].
  - intros manager_id. by rewrite !list_users_selects.
  - intros role. by rewrite !list_users_selects.
  - rewrite list_users_selects. simpl. by rewrite filter_all.
  - rewrite list_users_selects. simpl. by rewrite filter_all.
  - intros date. by rewrite !list_rosters_selects.
  - rewrite list_rosters_selects. simpl. by rewrite filter_all.
  - intros date Hdate. apply String.eqb_neq in Hdate.
    rewrite list_rosters_selects. do 3 f_equal.
    apply List.filter_ext. intros r. unfold wanted_day. by rewrite Hdate.
  - apply list_tasktypes_selects.
  - intros t. apply flag_isb_spec.
  - rewrite list_tasktypes_selects. by rewrite filter_all.
Qed.

Section IdFormat.
Context `{Libraries}.

(** C9, as the code has it: no listing looks at the format of an id.  For
    every text, parsable as a store identifier or not, [list_users] with that
    [manager_id] and [list_rosters] with that [user_id] succeed (status 200),
    leave the store alone, and use a non-empty text as an exact-match filter
    on the stored field.  The 400 error "Invalid id format" is what the
    helper [oid] raises on an unparsable text, and no listing calls it. *)
Theorem listing_ignores_id_format (text : string) (st : Store) :
  (forall role,
     list_users role (Some text) st
       = (st, Return (map normalize
                        (List.filter (fun u => wanted "role" role (body u) &&
                                               wanted "manager_id" (Some text) (body u))
                           (collection "user" st)))) /\
     status_code_of (snd (list_users role (Some text) st)) = 200) /\
  (forall date,
     list_rosters (Some text) date st
       = (st, Return (map normalize
                        (List.filter (fun r => wanted "user_id" (Some text) (body r) &&
                                               wanted_day date (body r))
                           (collection "roster" st)))) /\
     status_code_of (snd (list_rosters (Some text) date st)) = 200) /\
  (forall d, text <> "" ->
     (wanted "manager_id" (Some text) d = true <-> field_is "manager_id" text d) /\
     (wanted "user_id" (Some text) d = true <-> field_is "user_id" text d)) /\
  (oid text = Raise (HTTPException 400 "Invalid id format") <-> ObjectId_of_str text = None).
Proof.
  split; [|split; [|split]].
  - intros role. by rewrite list_users_selects.
  - intros date. by rewrite list_rosters_selects.
  - intros d Hne. apply String.eqb_neq in Hne. unfold wanted. rewrite Hne.
    split; apply field_isb_spec.
  - unfold oid. destruct (ObjectId_of_str text); split; congruence.
Qed.

End IdFormat.

(** * The handlers at work

    Runs of the handlers on the reference instance of the libraries. *)

Example morning_accepted :
  create_roster (H := Reference.libraries) morning empty_store = (one_roster, Return 0%N).
Proof. reflexivity. Qed.

Example overlapping_rejected :
  snd (create_roster (H := Reference.libraries)
         (CreateRoster.Make "ann" "qa" "2024-01-15T10:59:59" "2024-01-15T13:00:00" None None)
         one_roster)
  = Raise OverlapError.
Proof. reflexivity. Qed.

Example touching_accepted :
  snd (create_roster (H := Reference.libraries) next_hour one_roster) = Return 1%N.
Proof. reflexivity. Qed.

(** C1 as stated fails: the store holds a roster of the same user that
    satisfies the overlap condition against [inverted], yet creation does not
    fail with the overlap error (it fails the end-after-start check first). *)
Lemma create_roster_overlap_not_iff :
  ~ (snd (create_roster (H := Reference.libraries) inverted one_roster) = Raise OverlapError
     <-> has_overlap inverted one_roster).
Proof.
  intros [_ Hback].
  assert (Hov : has_overlap inverted one_roster).
  { exists (Stored 0%N (model_dump (RosterSchema morning))). split; [by left|].
    split; [reflexivity|].
    exists "2024-01-15T10:00:00", "2024-01-15T11:00:00". repeat split; reflexivity. }
  apply Hback in Hov. vm_compute in Hov. discriminate.
Qed.

Lemma create_roster_end_not_after_start_witness :
  create_roster (H := Reference.libraries) inverted one_roster
    = (one_roster, Raise (HTTPException 400 "End time must be after start time")) /\
  status_code_of (snd (create_roster (H := Reference.libraries) inverted one_roster)) = 400 /\
  detail_of (snd (create_roster (H := Reference.libraries) inverted one_roster))
    = Some "End time must be after start time".
Proof.
  apply (create_roster_end_not_after_start (H := Reference.libraries) inverted one_roster
           (Reference.Naive 2024 1 15 10 30 0) (Reference.Naive 2024 1 15 10 15 0));
    reflexivity.
Defined.

Lemma create_roster_unparsable_witness :
  create_roster (H := Reference.libraries) unparsable one_roster = (one_roster, Raise ValueError) /\
  status_code_of (snd (create_roster (H := Reference.libraries) unparsable one_roster)) = 500 /\
  detail_of (snd (create_roster (H := Reference.libraries) unparsable one_roster)) = None.
Proof.
  apply (create_roster_unparsable (H := Reference.libraries) unparsable one_roster).
  left. reflexivity.
Defined.

Lemma create_user_bad_role_witness :
  create_user (H := Reference.libraries) eve one_user = (one_user, Raise ValidationError) /\
  status_code_of (snd (create_user (H := Reference.libraries) eve one_user)) = 500 /\
  detail_of (snd (create_user (H := Reference.libraries) eve one_user)) = None.
Proof.
  apply (create_user_bad_role (H := Reference.libraries) eve one_user). reflexivity.
Defined.

Lemma list_rosters_by_date_witness :
  list_rosters None (Some "2024-01-15") two_rosters
    = (two_rosters, Return [Listed 0%N (model_dump (RosterSchema morning))]) /\
  list_rosters (Some "ann") (Some "2024-01-16") two_rosters
    = (two_rosters, Return [Listed 1%N (model_dump (RosterSchema next_day))]) /\
  list_rosters (Some "bob") (Some "2024-01-16") two_rosters = (two_rosters, Return []).
Proof.
  destruct (list_rosters_by_date "2024-01-15" two_rosters) as [Hday _]; [discriminate|].
  destruct (list_rosters_by_date "2024-01-16" two_rosters) as (_ & Huser & _); [discriminate|].
  split; [|split].
  - rewrite Hday. reflexivity.
  - rewrite (Huser "ann"); [reflexivity | discriminate].
  - rewrite (Huser "bob"); [reflexivity | discriminate].
Defined.

Lemma create_user_duplicate_witness :
  (snd (create_user (H := Reference.libraries) bob one_user)
     = Raise (HTTPException 400 "Email already exists")
   <-> email_taken "bob@corp.org" one_user) /\
  exists ids,
    snd (requests (create_user (H := Reference.libraries)) [ann; bob] empty_store)
      = map Return ids /\
    length ids = 2 /\ List.NoDup ids.
Proof.
  split.
  - apply (create_user_duplicate (H := Reference.libraries) bob (validated bob) one_user
             [ann; bob] [validated ann; validated bob]);
      [reflexivity | repeat constructor].
  - apply (create_user_duplicate (H := Reference.libraries) bob (validated bob) empty_store
             [ann; bob] [validated ann; validated bob]);
      [reflexivity | repeat constructor | |].
    + repeat constructor; simpl; intuition discriminate.
    + intros d _ [u [Hin _]]. vm_compute in Hin. exact Hin.
Defined.

(** C9 as stated fails: ["not-an-id"] does not parse as a store identifier,
    yet listing users with it as [manager_id] does not fail with "Invalid id
    format": it succeeds and returns the user whose [manager_id] is that text. *)
Lemma list_users_unparsable_id_not_400 :
  ~ (ObjectId_of_str (Libraries := Reference.libraries) "not-an-id" = None ->
     snd (list_users None (Some "not-an-id") one_user)
       = Raise (HTTPException 400 "Invalid id format")).
Proof.
  intros Hclaim. specialize (Hclaim eq_refl). vm_compute in Hclaim. discriminate.
Qed.

Example list_users_unparsable_id_lists :
  list_users None (Some "not-an-id") one_user
    = (one_user, Return [Listed 0%N (model_dump (validated bob))]).
Proof. reflexivity. Qed.

Example oid_unparsable :
  oid (H := Reference.libraries) "not-an-id" = Raise (HTTPException 400 "Invalid id format").
Proof. reflexivity. Qed.

(** * Further properties *)

(** ** How each create handler ends *)

Section Outcomes.
Context `{Libraries}.

Lemma create_user_outcome (p : CreateUser.t) (st : Store) :
  (UserSchema p = Raise ValidationError /\ create_user p st = (st, Raise ValidationError)) \/
  (exists data, UserSchema p = Return data /\ email_taken (User.email data) st /\
                create_user p st = (st, Raise DuplicateEmail)) \/
  (exists data, UserSchema p = Return data /\ ~ email_taken (User.email data) st /\
                create_user p st
                = (insert_document "user" (model_dump data) st, Return (next_oid st))).
Proof.
  destruct (UserSchema p) as [data | e] eqn:Hv.
  - right. destruct (email_taken_dec (User.email data) st) as [Ht | Hno].
    + left. exists data. by rewrite (create_user_taken p data st Hv Ht).
    + right. exists data. by rewrite (create_user_fresh p data st Hv Hno).
  - left. rewrite (create_user_invalid p e st Hv).
    unfold UserSchema in Hv.
    destruct (validate_email _); [destruct (role_literal _)|]; by inversion Hv.
Qed.

Lemma create_tasktype_outcome (p : CreateTasktype.t) (st : Store) :
  (tasktype_taken p st /\ create_tasktype p st = (st, Raise DuplicateTasktype)) \/
  (~ tasktype_taken p st /\
   create_tasktype p st
   = (insert_document "tasktype" (model_dump (TasktypeSchema p)) st, Return (next_oid st))).
Proof.
  rewrite create_tasktype_run. unfold tasktype_taken.
  destruct (List.find _ _) as [d|] eqn:Hf.
  - left. split; [|done]. apply List.find_some in Hf as [Hin Hm].
    exists d. split; [done|]. by apply matches_tasktype_filter.
  - right. split; [|done]. intros [d [Hin Hc]].
    apply matches_tasktype_filter in Hc.
    pose proof (List.find_none _ _ Hf d Hin) as Hn. cbv beta in Hn. congruence.
Qed.

Lemma create_roster_outcome (p : CreateRoster.t) (st : Store) :
  (exists e, create_roster p st = (st, Raise e) /\
             (e = OverlapError <-> passes_range_check p /\ has_overlap p st)) \/
  (passes_range_check p /\ ~ has_overlap p st /\
   create_roster p st
   = (insert_document "roster" (model_dump (RosterSchema p)) st, Return (next_oid st))).
Proof.
  destruct (create_roster_cases p st) as [Hp | Hr].
  - destruct Hp as (s & e & Hs & He & Hle).
    assert (Hp : passes_range_check p) by (by exists s, e).
    rewrite (create_roster_checked p st s e Hs He Hle).
    destruct (List.find _ _) as [d|] eqn:Hf.
    + left. exists OverlapError. split; [done|]. split; [|done]. intros _.
      split; [done|]. apply find_overlap_Some. by exists d.
    + right. split; [done|]. split; [|done]. intros Hov.
      apply find_overlap_Some in Hov as [d Hd]. congruence.
  - left. destruct Hr as [Hr | [Hr | Hr]]; rewrite Hr; eexists; (split; [done|]).
    + split; [discriminate|]. intros [(s & e & Hs & He & Hle) _]. revert Hr.
      rewrite (create_roster_checked p st s e Hs He Hle). by destruct (List.find _ _).
    + split; [discriminate|]. intros [(s & e & Hs & He & Hle) _]. revert Hr.
      rewrite (create_roster_checked p st s e Hs He Hle). by destruct (List.find _ _).
    + split; [discriminate|]. intros [(s & e & Hs & He & Hle) _]. revert Hr.
      rewrite (create_roster_checked p st s e Hs He Hle). by destruct (List.find _ _).
Qed.

End Outcomes.

(** ** What one request does to the store *)

Lemma dumped_roster (p : CreateRoster.t) :
  let d := model_dump (RosterSchema p) in
  d !! "user_id" = Some (BStr (CreateRoster.user_id p)) /\
  d !! "start_time" = Some (BStr (CreateRoster.start_time p)) /\
  d !! "end_time" = Some (BStr (CreateRoster.end_time p)).
Proof. by repeat split. Qed.

Lemma dumped_tasktype (p : CreateTasktype.t) :
  let d := model_dump (TasktypeSchema p) in
  d !! "name" = Some (BStr (CreateTasktype.name p)) /\
  d !! "code" = Some (optional (CreateTasktype.code p)) /\
  d !! "active" = Some (BBool (CreateTasktype.active p)).
Proof. by repeat split. Qed.

(** A stored roster overlaps the candidate exactly when it overlaps the
    document the candidate is stored as, in either order. *)
Lemma overlaps_dumped (p : CreateRoster.t) (a : doc) :
  (overlaps p a <-> rosters_overlap a (model_dump (RosterSchema p))) /\
  (overlaps p a <-> rosters_overlap (model_dump (RosterSchema p)) a).
Proof.
  destruct (dumped_roster p) as (Hu & Hs & He). cbv zeta in *.
  unfold overlaps, rosters_overlap, field_is. split; split.
  - intros [Hua (s & e & Hsa & Hea & Hlt1 & Hlt2)].
    by exists (CreateRoster.user_id p), s, e, (CreateRoster.start_time p), (CreateRoster.end_time p).
  - intros (u & s1 & e1 & s2 & e2 & Hua & Hup & Hsa & Hea & Hsp & Hep & Hlt1 & Hlt2).
    rewrite Hu in Hup. rewrite Hs in Hsp. rewrite He in Hep.
    inversion Hup; inversion Hsp; inversion Hep; subst.
    split; [done|]. by exists s1, e1.
  - intros [Hua (s & e & Hsa & Hea & Hlt1 & Hlt2)].
    by exists (CreateRoster.user_id p), (CreateRoster.start_time p), (CreateRoster.end_time p), s, e.
  - intros (u & s1 & e1 & s2 & e2 & Hup & Hua & Hsp & Hep & Hsa & Hea & Hlt1 & Hlt2).
    rewrite Hu in Hup. rewrite Hs in Hsp. rewrite He in Hep.
    inversion Hup; inversion Hsp; inversion Hep; subst.
    split; [done|]. by exists s2, e2.
Qed.

Section Invariants.
Context `{Libraries}.

(** What a request does to the store: nothing, or the one insert of a create
    handler whose checks passed. *)
Lemma serve_store (r : request) (st : Store) :
  fst (serve r st) = st \/
  match r with
  | PostUsers p =>
      exists data, UserSchema p = Return data /\ ~ email_taken (User.email data) st /\
                   fst (serve r st) = insert_document "user" (model_dump data) st
  | PostTasktypes p =>
      ~ tasktype_taken p st /\
      fst (serve r st) = insert_document "tasktype" (model_dump (TasktypeSchema p)) st
  | PostRosters p =>
      passes_range_check p /\ ~ has_overlap p st /\
      fst (serve r st) = insert_document "roster" (model_dump (RosterSchema p)) st
  | _ => False
  end.
Proof.
  destruct r as [p | role m | p | a | p | u d]; unfold serve.
  - destruct (create_user_outcome p st) as [[_ Hr] | [(data & _ & _ & Hr) | (data & Hv & Hno & Hr)]];
      rewrite Hr; [by left | by left |]. right. by exists data.
  - rewrite list_users_selects. by left.
  - destruct (create_tasktype_outcome p st) as [[_ Hr] | [Hno Hr]]; rewrite Hr; [by left|].
    by right.
  - rewrite list_tasktypes_selects. by left.
  - destruct (create_roster_outcome p st) as [(e & Hr & _) | (Hp & Hno & Hr)];
      rewrite Hr; [by left|]. by right.
  - rewrite list_rosters_selects. by left.
Qed.

Lemma serve_all_invariant (I : Store -> Prop) :
  (forall r st, I st -> I (fst (serve r st))) ->
  forall rs st, I st -> I (serve_all rs st).
Proof.
  intros Hstep rs. induction rs as [|r rs IH]; intros st Hst; [done|].
  simpl. apply IH. by apply Hstep.
Qed.

End Invariants.

(** ** Resubmitting, and the order of creation *)

Lemma has_overlap_insert (q : CreateRoster.t) (d : doc) (st : Store) :
  has_overlap q (insert_document "roster" d st) <-> has_overlap q st \/ overlaps q d.
Proof.
  unfold has_overlap. rewrite collection_insert_same. split.
  - intros [u [Hin Hov]]. apply in_app_iff in Hin as [Hin | [<- | []]].
    + left. by exists u.
    + by right.
  - intros [[u [Hin Hov]] | Hov].
    + exists u. split; [|done]. apply in_app_iff. by left.
    + eexists. split; [apply in_app_iff; right; by left|]. done.
Qed.

Lemma tasktype_taken_insert (q : CreateTasktype.t) (d : doc) (st : Store) :
  tasktype_taken q (insert_document "tasktype" d st) <-> tasktype_taken q st \/ tasktype_clash q d.
Proof.
  unfold tasktype_taken. rewrite collection_insert_same. split.
  - intros [u [Hin Hc]]. apply in_app_iff in Hin as [Hin | [<- | []]].
    + left. by exists u.
    + by right.
  - intros [[u [Hin Hc]] | Hc].
    + exists u. split; [|done]. apply in_app_iff. by left.
    + eexists. split; [apply in_app_iff; right; by left|]. done.
Qed.

Section Resubmitting.
Context `{Libraries}.

(** Nothing is ever removed: what a collection holds, it holds after any
    further request. *)
Lemma serve_keeps (r : request) (st : Store) (name : string) (d : stored) :
  In d (collection name st) -> In d (collection name (fst (serve r st))).
Proof.
  intros Hin.
  assert (Hins : forall n x, In d (collection name (insert_document n x st))).
  { intros n x. destruct (decide (n = name)) as [-> | Hne].
    - rewrite collection_insert_same. apply in_app_iff. by left.
    - by rewrite collection_insert_other. }
  destruct (serve_store r st) as [-> | Hr]; [done|].
  destruct r as [p | ? ? | p | ? | p | ? ?]; try done.
  - destruct Hr as (data & _ & _ & ->). apply Hins.
  - destruct Hr as (_ & ->). apply Hins.
  - destruct Hr as (_ & _ & ->). apply Hins.
Qed.

Lemma serve_all_keeps (rs : list request) (st : Store) (name : string) (d : stored) :
  In d (collection name st) -> In d (collection name (serve_all rs st)).
Proof.
  revert st. induction rs as [|r rs IH]; intros st Hin; [done|].
  simpl. apply IH. by apply serve_keeps.
Qed.

(** X4: once a user has been created, the same payload is rejected as a
    duplicate from then on, whatever requests are served in between. *)
Theorem created_user_stays_duplicate
    (p : CreateUser.t) (st st' : Store) (i : ObjectId) (rs : list request) :
  create_user p st = (st', Return i) ->
  create_user p (serve_all rs st')
  = (serve_all rs st', Raise (HTTPException 400 "Email already exists")).
Proof.
  intros Hok.
  destruct (create_user_outcome p st) as [[_ Hr] | [(data & _ & _ & Hr) | (data & Hv & _ & Hr)]];
    rewrite Hr in Hok; try discriminate.
  inversion Hok; subst. apply (create_user_taken p data _ Hv).
  assert (Hnow : email_taken (User.email data) (insert_document "user" (model_dump data) st))
    by (apply email_taken_insert; by right).
  destruct Hnow as [u [Hin Hf]]. exists u. split; [|done]. by apply serve_all_keeps.
Qed.

(** X5: once a task type has been created, the same payload is rejected as a
    duplicate from then on, whatever requests are served in between. *)
Theorem created_tasktype_stays_duplicate
    (p : CreateTasktype.t) (st st' : Store) (i : ObjectId) (rs : list request) :
  create_tasktype p st = (st', Return i) ->
  create_tasktype p (serve_all rs st')
  = (serve_all rs st', Raise (HTTPException 400 "Task type with same name/code exists")).
Proof.
  intros Hok.
  destruct (create_tasktype_outcome p st) as [[_ Hr] | [_ Hr]];
    rewrite Hr in Hok; try discriminate.
  inversion Hok; subst.
  assert (Hnow : tasktype_taken p
                   (insert_document "tasktype" (model_dump (TasktypeSchema p)) st)).
  { apply tasktype_taken_insert. right. left. apply dumped_tasktype. }
  destruct Hnow as [u [Hin Hc]].
  destruct (create_tasktype_outcome p (serve_all rs
              (insert_document "tasktype" (model_dump (TasktypeSchema p)) st)))
    as [[_ Hr'] | [Hno _]]; [done|].
  exfalso. apply Hno. exists u. split; [|done]. by apply serve_all_keeps.
Qed.

Lemma overlaps_itself (p : CreateRoster.t) :
  overlaps p (model_dump (RosterSchema p))
  <-> str_lt (CreateRoster.start_time p) (CreateRoster.end_time p).
Proof.
  destruct (dumped_roster p) as (Hu & Hs & He). cbv zeta in *.
  unfold overlaps, field_is. split.
  - intros [_ (s & e & Hs' & He' & Hlt & _)].
    rewrite Hs in Hs'. rewrite He in He'. inversion Hs'; inversion He'; by subst.
  - intros Hlt. split; [done|].
    by exists (CreateRoster.start_time p), (CreateRoster.end_time p).
Qed.

(** X6: once a roster has been created, the same payload is rejected as
    overlapping from then on when its [start_time] is below its [end_time] as
    texts; when it is not (the parsed times pass the check, the texts compare
    the other way), the same payload is accepted again right away. *)
Theorem created_roster_resubmitted
    (p : CreateRoster.t) (st st' : Store) (i : ObjectId) (rs : list request) :
  create_roster p st = (st', Return i) ->
  (str_lt (CreateRoster.start_time p) (CreateRoster.end_time p) ->
     create_roster p (serve_all rs st')
     = (serve_all rs st', Raise (HTTPException 400 "Overlapping roster for this user"))) /\
  (~ str_lt (CreateRoster.start_time p) (CreateRoster.end_time p) ->
     create_roster p st'
     = (insert_document "roster" (model_dump (RosterSchema p)) st', Return (N.succ i))).
Proof.
  intros Hok.
  destruct (create_roster_outcome p st) as [(e & Hr & _) | (Hp & Hno & Hr)];
    rewrite Hr in Hok; try discriminate.
  inversion Hok; subst. split.
  - intros Hlt.
    assert (Hov : has_overlap p (serve_all rs
                    (insert_document "roster" (model_dump (RosterSchema p)) st))).
    { exists (Stored (next_oid st) (model_dump (RosterSchema p))).
      split; [|by apply overlaps_itself].
      apply serve_all_keeps. rewrite collection_insert_same. apply in_app_iff. right. by left. }
    destruct (create_roster_outcome p (serve_all rs
                (insert_document "roster" (model_dump (RosterSchema p)) st)))
      as [(e & Hr' & He) | (_ & Hno' & _)]; [|done].
    rewrite Hr'. do 2 f_equal. by apply He.
  - intros Hnlt.
    destruct (create_roster_outcome p
                (insert_document "roster" (model_dump (RosterSchema p)) st))
      as [(e & Hr' & He) | (_ & _ & Hr')]; [|done].
    exfalso.
    destruct (create_roster_cases p
                (insert_document "roster" (model_dump (RosterSchema p)) st))
      as [(s & e' & Hs & He' & Hle) | Hbad].
    + revert Hr'. rewrite (create_roster_checked p _ s e' Hs He' Hle).
      destruct (List.find _ _) as [d|] eqn:Hf; [|discriminate]. intros _.
      assert (Hov : has_overlap p
                (insert_document "roster" (model_dump (RosterSchema p)) st))
        by (apply find_overlap_Some; by exists d).
      apply has_overlap_insert in Hov as [Hov | Hov]; [done|].
      by apply Hnlt, overlaps_itself.
    + destruct Hp as (s & e' & Hs & He' & Hle).
      pose proof (create_roster_checked p
                    (insert_document "roster" (model_dump (RosterSchema p)) st)
                    s e' Hs He' Hle) as Hrun.
      destruct (List.find _ _); destruct Hbad as [Hb | [Hb | Hb]];
        rewrite Hb in Hrun; discriminate.
Qed.

(** X7: two rosters accepted one after the other are also accepted in the
    other order: whether a pair of rosters fits does not depend on which
    was created first. *)
Theorem roster_creation_commutes
    (p q : CreateRoster.t) (st st1 st2 : Store) (i j : ObjectId) :
  create_roster p st = (st1, Return i) ->
  create_roster q st1 = (st2, Return j) ->
  create_roster q st
    = (insert_document "roster" (model_dump (RosterSchema q)) st, Return i) /\
  create_roster p (insert_document "roster" (model_dump (RosterSchema q)) st)
    = (insert_document "roster" (model_dump (RosterSchema p))
         (insert_document "roster" (model_dump (RosterSchema q)) st),
       Return j).
Proof.
  intros Hp Hq.
  destruct (create_roster_outcome p st) as [(e & Hr & _) | (Hpp & Hpno & Hr)];
    rewrite Hr in Hp; try discriminate.
  inversion Hp; subst. clear Hp.
  destruct (create_roster_outcome q
              (insert_document "roster" (model_dump (RosterSchema p)) st))
    as [(e & Hr' & _) | (Hqp & Hqno & Hr')]; rewrite Hr' in Hq; try discriminate.
  inversion Hq; subst. clear Hq.
  assert (Hq_st : ~ has_overlap q st)
    by (intros Hov; apply Hqno, has_overlap_insert; by left).
  assert (Hq_p : ~ overlaps q (model_dump (RosterSchema p)))
    by (intros Hov; apply Hqno, has_overlap_insert; by right).
  assert (Hp_q : ~ overlaps p (model_dump (RosterSchema q))).
  { intros Hov. apply Hq_p.
    apply (proj2 (overlaps_dumped q _)). by apply (proj1 (overlaps_dumped p _)). }
  split.
  - destruct (create_roster_outcome q st) as [(e & Hr'' & He) | (_ & _ & Hr'')]; [|done].
    exfalso. clear Hr'.
    destruct Hqp as (s & e' & Hs & He' & Hle). revert Hr''.
    rewrite (create_roster_checked q st s e' Hs He' Hle).
    destruct (List.find _ _) as [d|] eqn:Hf; [|discriminate]. intros _.
    apply Hq_st, find_overlap_Some. by exists d.
  - destruct Hpp as (s & e' & Hs & He' & Hle).
    rewrite (create_roster_checked p _ s e' Hs He' Hle).
    destruct (List.find _ _) as [d|] eqn:Hf; [|done].
    exfalso.
    assert (Hov : has_overlap p (insert_document "roster" (model_dump (RosterSchema q)) st))
      by (apply find_overlap_Some; by exists d).
    apply has_overlap_insert in Hov as [Hov | Hov]; done.
Qed.

End Resubmitting.

(** ** Lookups that run before the inserts *)

Lemma snoc2_lookups {A} (l : list A) (a b : A) :
  ((l ++ [a]) ++ [b])%list !! length l = Some a /\
  ((l ++ [a]) ++ [b])%list !! S (length l) = Some b.
Proof.
  split; apply lookup_snoc_Some.
  - left. split; [rewrite length_app; simpl; lia|].
    apply lookup_snoc_Some. by right.
  - right. split; [rewrite length_app; simpl; lia | done].
Qed.

Lemma distinct_field_broken (P : string -> Prop) (k : string) (l : list stored)
    (o1 o2 : ObjectId) (d1 d2 : doc) (e : string) :
  P e -> field_is k e d1 -> field_is k e d2 ->
  ~ distinct_field P k ((l ++ [Stored o1 d1]) ++ [Stored o2 d2])%list.
Proof.
  intros HP H1 H2 Hd.
  destruct (snoc2_lookups l (Stored o1 d1) (Stored o2 d2)) as [Ha Hb].
  pose proof (Hd _ _ _ _ e Ha Hb HP H1 H2). lia.
Qed.

Section Races.
Context `{Libraries}.

(** Each handler is its lookup followed by its insert. *)
Lemma create_user_split (p : CreateUser.t) (st : Store) :
  create_user p st = bind (create_user_lookup p) create_user_insert st.
Proof.
  unfold create_user, create_user_lookup, create_user_insert. run_handler.
  destruct (UserSchema p); [|done]. by destruct (List.find _ _).
Qed.

Lemma create_tasktype_split (p : CreateTasktype.t) (st : Store) :
  create_tasktype p st = bind (create_tasktype_lookup p) create_tasktype_insert st.
Proof.
  unfold create_tasktype, create_tasktype_lookup, create_tasktype_insert. run_handler.
  by destruct (List.find _ _).
Qed.

Lemma create_roster_split (p : CreateRoster.t) (st : Store) :
  create_roster p st = bind (create_roster_lookup p) create_roster_insert st.
Proof.
  unfold create_roster, create_roster_lookup, create_roster_insert. run_handler.
  destruct (fromisoformat (CreateRoster.start_time p)); run_handler; [|done].
  destruct (fromisoformat (CreateRoster.end_time p)); run_handler; [|done].
  destruct (datetime_le _ _) as [[|]|]; run_handler; try done.
  by destruct (List.find _ _).
Qed.

Lemma create_user_lookup_free (p : CreateUser.t) (data : User.t) (st : Store) :
  UserSchema p = Return data -> ~ email_taken (User.email data) st ->
  create_user_lookup p st = (st, Return data).
Proof.
  intros Hv Hno. unfold create_user_lookup. rewrite Hv. run_handler.
  destruct (List.find _ _) as [u|] eqn:Hf; [|done].
  exfalso. apply Hno, find_email_Some. by exists u.
Qed.

Lemma create_tasktype_lookup_free (p : CreateTasktype.t) (st : Store) :
  ~ tasktype_taken p st ->
  create_tasktype_lookup p st = (st, Return (TasktypeSchema p)).
Proof.
  intros Hno. unfold create_tasktype_lookup. run_handler.
  destruct (List.find _ _) as [d|] eqn:Hf; [|done].
  exfalso. apply Hno. apply List.find_some in Hf as [Hin Hm].
  exists d. split; [done|]. by apply matches_tasktype_filter.
Qed.

Lemma create_roster_lookup_free (p : CreateRoster.t) (st : Store) :
  passes_range_check p -> ~ has_overlap p st ->
  create_roster_lookup p st = (st, Return (RosterSchema p)).
Proof.
  intros (s & e & Hs & He & Hle) Hno. unfold create_roster_lookup. run_handler.
  rewrite Hs. run_handler. rewrite He. run_handler. rewrite Hle. run_handler.
  destruct (List.find _ _) as [d|] eqn:Hf; [|done].
  exfalso. apply Hno, find_overlap_Some. by exists d.
Qed.

(** X1: [create_user] is its lookup followed by its insert, two separate
    store calls.  When two requests whose payloads validate to the same
    email, not stored yet, both run their lookup before either runs its
    insert, both are accepted and the store ends up holding that email
    twice; served one after the other, the second is rejected as a
    duplicate. *)
Theorem racing_users_share_email
    (p q : CreateUser.t) (dp dq : User.t) (st : Store) :
  UserSchema p = Return dp ->
  UserSchema q = Return dq ->
  User.email dp = User.email dq ->
  ~ email_taken (User.email dp) st ->
  let st' := insert_document "user" (model_dump dq)
               (insert_document "user" (model_dump dp) st) in
  (forall x s, create_user x s = bind (create_user_lookup x) create_user_insert s) /\
  race (create_user_lookup p) (create_user_lookup q) create_user_insert st
    = (st', (Return (next_oid st), Return (N.succ (next_oid st)))) /\
  ~ emails_unique st' /\
  create_user q (fst (create_user p st))
    = (fst (create_user p st), Raise (HTTPException 400 "Email already exists")).
Proof.
  intros Hp Hq Heq Hno. cbv zeta.
  split; [apply create_user_split|]. split; [|split].
  - unfold race.
    rewrite (create_user_lookup_free p dp st Hp Hno).
    rewrite (create_user_lookup_free q dq st Hq); [done | by rewrite <- Heq].
  - unfold emails_unique. rewrite !collection_insert_same.
    apply (distinct_field_broken _ _ _ _ _ _ _ (User.email dp)); [done | apply dumped_email |].
    rewrite Heq. apply dumped_email.
  - rewrite (create_user_fresh p dp st Hp Hno). simpl.
    apply (create_user_taken q dq _ Hq). apply email_taken_insert. by right.
Qed.

(** X2: [create_tasktype] is its lookup followed by its insert.  When two
    requests that clash with each other (same name, or same non-empty code)
    but with nothing stored both run their lookup before either runs its
    insert, both are accepted and the store ends up with a repeated name or
    a repeated non-empty code; served one after the other, the second is
    rejected as a duplicate. *)
Theorem racing_tasktypes_clash (p q : CreateTasktype.t) (st : Store) :
  tasktype_clash q (model_dump (TasktypeSchema p)) ->
  ~ tasktype_taken p st ->
  ~ tasktype_taken q st ->
  let st' := insert_document "tasktype" (model_dump (TasktypeSchema q))
               (insert_document "tasktype" (model_dump (TasktypeSchema p)) st) in
  (forall x s, create_tasktype x s
               = bind (create_tasktype_lookup x) create_tasktype_insert s) /\
  race (create_tasktype_lookup p) (create_tasktype_lookup q) create_tasktype_insert st
    = (st', (Return (next_oid st), Return (N.succ (next_oid st)))) /\
  ~ (names_unique st' /\ codes_unique st') /\
  create_tasktype q (fst (create_tasktype p st))
    = (fst (create_tasktype p st),
       Raise (HTTPException 400 "Task type with same name/code exists")).
Proof.
  intros Hclash Hp Hq. cbv zeta.
  split; [apply create_tasktype_split|]. split; [|split].
  - unfold race.
    rewrite (create_tasktype_lookup_free p st Hp).
    by rewrite (create_tasktype_lookup_free q st Hq).
  - unfold names_unique, codes_unique. rewrite !collection_insert_same.
    intros [Hnames Hcodes].
    destruct (dumped_tasktype q) as (Hname & Hcode & _). cbv zeta in *.
    destruct Hclash as [Hn | (c & Hc & Hne & Hd)].
    + by apply (distinct_field_broken _ _ _ _ _ _ _ (CreateTasktype.name q) I Hn Hname)
        in Hnames.
    + apply (distinct_field_broken _ _ _ _ _ _ _ c Hne Hd) in Hcodes; [done|].
      unfold field_is. rewrite Hcode, Hc. done.
  - destruct (create_tasktype_outcome p st) as [[Ht _] | [_ Hr]]; [done|].
    rewrite Hr. simpl.
    destruct (create_tasktype_outcome q
                (insert_document "tasktype" (model_dump (TasktypeSchema p)) st))
      as [[_ Hr'] | [Hno _]]; [done|].
    exfalso. apply Hno, tasktype_taken_insert. by right.
Qed.

(** X3: [create_roster] is its lookup followed by its insert.  When two
    requests that overlap each other but no stored roster both run their
    lookup before either runs its insert, both are accepted and the store
    ends up with two overlapping rosters of one user; served one after the
    other, the second is rejected as overlapping. *)
Theorem racing_rosters_overlap (p q : CreateRoster.t) (st : Store) :
  passes_range_check p ->
  passes_range_check q ->
  overlaps q (model_dump (RosterSchema p)) ->
  ~ has_overlap p st ->
  ~ has_overlap q st ->
  let st' := insert_document "roster" (model_dump (RosterSchema q))
               (insert_document "roster" (model_dump (RosterSchema p)) st) in
  (forall x s, create_roster x s = bind (create_roster_lookup x) create_roster_insert s) /\
  race (create_roster_lookup p) (create_roster_lookup q) create_roster_insert st
    = (st', (Return (next_oid st), Return (N.succ (next_oid st)))) /\
  ~ no_overlaps st' /\
  create_roster q (fst (create_roster p st))
    = (fst (create_roster p st),
       Raise (HTTPException 400 "Overlapping roster for this user")).
Proof.
  intros Hpp Hqp Hov Hp Hq. cbv zeta.
  split; [apply create_roster_split|]. split; [|split].
  - unfold race.
    rewrite (create_roster_lookup_free p st Hpp Hp).
    by rewrite (create_roster_lookup_free q st Hqp Hq).
  - unfold no_overlaps. rewrite !collection_insert_same. intros Hinv.
    destruct (snoc2_lookups (collection "roster" st)
                (Stored (next_oid st) (model_dump (RosterSchema p)))
                (Stored (next_oid (insert_document "roster" (model_dump (RosterSchema p)) st))
                   (model_dump (RosterSchema q)))) as [Ha Hb].
    apply (Hinv _ _ _ _ Ha Hb); [lia|]. simpl.
    by apply (proj1 (overlaps_dumped q _)).
  - destruct (create_roster_outcome p st) as [(e & Hr & He) | (_ & _ & Hr)].
    + exfalso. destruct Hpp as (s & e' & Hs & He' & Hle). revert Hr.
      rewrite (create_roster_checked p st s e' Hs He' Hle).
      destruct (List.find _ _) as [d|] eqn:Hf; [|discriminate]. intros _.
      apply Hp, find_overlap_Some. by exists d.
    + rewrite Hr. simpl.
      destruct (create_roster_outcome q
                  (insert_document "roster" (model_dump (RosterSchema p)) st))
        as [(e & Hr' & He) | (_ & Hno & _)].
      * rewrite Hr'. do 2 f_equal. apply He. split; [done|].
        apply has_overlap_insert. by right.
      * exfalso. apply Hno, has_overlap_insert. by right.
Qed.

End Races.

(** ** From creation to listing *)

Lemma listing_snoc (P : stored -> bool) (l : list stored) (i : ObjectId) (d : doc) :
  map normalize (List.filter P (l ++ [Stored i d])%list)
  = (map normalize (List.filter P l) ++ listed_if (P (Stored i d)) i d)%list.
Proof.
  rewrite List.filter_app, map_app. simpl. by destruct (P (Stored i d)).
Qed.

Lemma wanted_own (k v : string) (d : doc) :
  d !! k = Some (BStr v) ->
  wanted k (Some v) d = true /\
  (forall w, w <> "" -> w <> v -> wanted k (Some w) d = false).
Proof.
  intros Hk. unfold wanted, field_isb, holds. rewrite Hk. simpl. split.
  - destruct (String.eqb v ""); [done|]. apply String.eqb_refl.
  - intros w Hne Hw. apply String.eqb_neq in Hne. rewrite Hne. by apply String.eqb_neq.
Qed.

Lemma dumped_user (data : User.t) :
  let d := model_dump data in
  d !! "role" = Some (BStr (User.role data)) /\
  d !! "manager_id" = Some (optional (User.manager_id data)) /\
  d !! "is_active" = Some (BBool (User.is_active data)).
Proof. by repeat split. Qed.

Section RoundTrips.
Context `{Libraries}.

(** X8: a user that was just created is the last entry of every later
    listing whose filters it passes, under the identifier creation returned,
    and it leaves the rest of every listing as it was; it passes the filter
    on its own role and on no other non-empty role, and it is stored as
    active. *)
Theorem created_user_is_listed (p : CreateUser.t) (st st' : Store) (i : ObjectId) :
  create_user p st = (st', Return i) ->
  exists data,
    UserSchema p = Return data /\
    (forall role manager_id old,
       list_users role manager_id st = (st, Return old) ->
       list_users role manager_id st'
       = (st', Return (old ++ listed_if (wanted "role" role (model_dump data) &&
                                         wanted "manager_id" manager_id (model_dump data))
                                i (model_dump data))%list)) /\
    wanted "role" (Some (User.role data)) (model_dump data) = true /\
    (forall r, r <> "" -> r <> User.role data ->
               wanted "role" (Some r) (model_dump data) = false) /\
    model_dump data !! "is_active" = Some (BBool true).
Proof.
  intros Hok.
  destruct (create_user_outcome p st) as [[_ Hr] | [(data & _ & _ & Hr) | (data & Hv & _ & Hr)]];
    rewrite Hr in Hok; try discriminate.
  inversion Hok; subst. exists data. split; [done|].
  destruct (dumped_user data) as (Hrole & _ & Hactive). cbv zeta in *.
  destruct (wanted_own "role" (User.role data) (model_dump data) Hrole) as [Hown Hother].
  repeat split; try done.
  - intros role m old. rewrite !list_users_selects, collection_insert_same, listing_snoc.
    by intros [= <-].
  - rewrite Hactive. unfold UserSchema in Hv.
    destruct (validate_email _); [destruct (role_literal _)|]; try discriminate.
    by inversion Hv.
Qed.

(** X9: a task type that was just created is the last entry of the full
    listing and of the listing for its own [active] value, under the
    identifier creation returned, and is absent from the listing for the
    other value; the rest of every listing is as it was. *)
Theorem created_tasktype_is_listed (p : CreateTasktype.t) (st st' : Store) (i : ObjectId) :
  create_tasktype p st = (st', Return i) ->
  forall active old,
    list_tasktypes active st = (st, Return old) ->
    list_tasktypes active st'
    = (st', Return (old ++ listed_if (match active with
                                      | Some a => Bool.eqb a (CreateTasktype.active p)
                                      | None => true
                                      end)
                             i (model_dump (TasktypeSchema p)))%list).
Proof.
  intros Hok active old.
  destruct (create_tasktype_outcome p st) as [[_ Hr] | [_ Hr]];
    rewrite Hr in Hok; try discriminate.
  inversion Hok; subst.
  rewrite !list_tasktypes_selects, collection_insert_same, listing_snoc.
  intros [= <-]. reflexivity.
Qed.

(** X10: a roster that was just created is the last entry of every later
    listing whose filters it passes, under the identifier creation returned,
    and it leaves the rest of every listing as it was; it passes the filter
    on its own [user_id], and the filter on a day exactly when its
    [start_time] is at most the day's last second and its [end_time] at
    least the day's first, as texts. *)
Theorem created_roster_is_listed (p : CreateRoster.t) (st st' : Store) (i : ObjectId) :
  create_roster p st = (st', Return i) ->
  (forall user_id date old,
     list_rosters user_id date st = (st, Return old) ->
     list_rosters user_id date st'
     = (st', Return (old ++ listed_if (wanted "user_id" user_id (model_dump (RosterSchema p)) &&
                                       wanted_day date (model_dump (RosterSchema p)))
                              i (model_dump (RosterSchema p)))%list)) /\
  wanted "user_id" (Some (CreateRoster.user_id p)) (model_dump (RosterSchema p)) = true /\
  (forall date, date <> "" ->
     (wanted_day (Some date) (model_dump (RosterSchema p)) = true <->
      str_le (CreateRoster.start_time p) (date ++ "T23:59:59") /\
      str_le (date ++ "T00:00:00") (CreateRoster.end_time p))).
Proof.
  intros Hok.
  destruct (create_roster_outcome p st) as [(e & Hr & _) | (_ & _ & Hr)];
    rewrite Hr in Hok; try discriminate.
  inversion Hok; subst.
  destruct (dumped_roster p) as (Hu & Hs & He). cbv zeta in *.
  split; [|split].
  - intros uid date old. rewrite !list_rosters_selects, collection_insert_same, listing_snoc.
    by intros [= <-].
  - by apply wanted_own.
  - intros date Hdate. apply String.eqb_neq in Hdate. unfold wanted_day. rewrite Hdate.
    rewrite in_day_window_spec. unfold field_is. split.
    + intros (s & e & Hs' & He' & Hle1 & Hle2).
      rewrite Hs in Hs'. rewrite He in He'. inversion Hs'; inversion He'; by subst.
    + intros [Hle1 Hle2]. by exists (CreateRoster.start_time p), (CreateRoster.end_time p).
Qed.

End RoundTrips.

(** ** What a request leaves alone *)

Section Frames.
Context `{Libraries}.

(** X11: every route works on one of the collections [get_schema] names,
    and leaves every other collection exactly as it was; a listing leaves
    the whole store as it was and always answers with a list. *)
Theorem requests_keep_to_their_collection (r : request) (st : Store) :
  In (target r) get_schema /\
  (forall name, name <> target r ->
     collection name (fst (serve r st)) = collection name st) /\
  match r with
  | GetUsers _ _ | GetTasktypes _ | GetRosters _ _ =>
      fst (serve r st) = st /\ exists l, snd (serve r st) = Listing (Return l)
  | _ => True
  end.
Proof.
  split; [|split].
  - destruct r; simpl; auto.
  - intros name Hne.
    destruct (serve_store r st) as [-> | Hins]; [done|].
    destruct r as [p | ? ? | p | ? | p | ? ?]; try done; simpl in Hne.
    + destruct Hins as (data & _ & _ & ->). by rewrite collection_insert_other.
    + destruct Hins as (_ & ->). by rewrite collection_insert_other.
    + destruct Hins as (_ & _ & ->). by rewrite collection_insert_other.
  - destruct r as [p | role m | p | a | p | u d]; try done; unfold serve.
    + rewrite list_users_selects. split; [done | by eexists].
    + rewrite list_tasktypes_selects. split; [done | by eexists].
    + rewrite list_rosters_selects. split; [done | by eexists].
Qed.


End Frames.

(** ** Listings as filters *)

Lemma normalize_inj (u v : stored) : normalize u = normalize v -> u = v.
Proof. destruct u, v. unfold normalize. simpl. by intros [= -> ->]. Qed.

Lemma in_listing (P : stored -> bool) (l : list stored) (x : listed) :
  In x (map normalize (List.filter P l)) <->
  exists u, In u l /\ P u = true /\ x = normalize u.
Proof.
  rewrite in_map_iff. split.
  - intros (u & <- & Hin). apply List.filter_In in Hin as [Hin HP]. by exists u.
  - intros (u & Hin & HP & ->). exists u. split; [done|]. by apply List.filter_In.
Qed.

Lemma filter_permutation {A} (P : A -> bool) (l1 l2 : list A) :
  Permutation l1 l2 -> Permutation (List.filter P l1) (List.filter P l2).
Proof.
  induction 1 as [| x l1 l2 _ IH | x y l | l1 l2 l3 _ IH1 _ IH2]; simpl.
  - constructor.
  - destruct (P x); [by constructor | done].
  - destruct (P x), (P y); try done; by constructor.
  - by etransitivity.
Qed.

(** X12: the two filters of the user listing combine as an intersection: a
    user is in the listing for a role and a manager exactly when it is in
    the listing for the role and in the listing for the manager; every
    listing is part of the unfiltered one; and two stores holding the same
    users in a different order give the same listing up to order. *)
Theorem list_users_filters (role manager_id : option string) (st : Store) :
  exists both by_role by_manager all,
    list_users role manager_id st = (st, Return both) /\
    list_users role None st = (st, Return by_role) /\
    list_users None manager_id st = (st, Return by_manager) /\
    list_users None None st = (st, Return all) /\
    (forall x, In x both <-> In x by_role /\ In x by_manager) /\
    (forall x, In x both -> In x all) /\
    (forall st2 both2,
       Permutation (collection "user" st) (collection "user" st2) ->
       list_users role manager_id st2 = (st2, Return both2) ->
       Permutation both both2).
Proof.
  do 4 eexists.
  split; [apply list_users_selects|]. split; [apply list_users_selects|].
  split; [apply list_users_selects|]. split; [apply list_users_selects|].
  split; [|split].
  - intros x. rewrite !in_listing. split.
    + intros (u & Hin & HP & ->). apply andb_true_iff in HP as [Hr Hm].
      split; exists u; simpl; rewrite ?andb_true_r; done.
    + intros [(u & Hin & Hr & ->) (v & Hin' & Hm & Heq)].
      apply normalize_inj in Heq as <-. exists u. simpl in *.
      rewrite andb_true_r in Hr. by rewrite Hr, Hm.
  - intros x. rewrite !in_listing. intros (u & Hin & _ & ->). by exists u.
  - intros st2 both2 Hperm. rewrite list_users_selects. intros [= <-].
    apply Permutation_map. by apply filter_permutation.
Qed.

(** ** The edges of the day window *)

Lemma compare_extension (a b : string) : b <> "" -> String.compare (a ++ b) a = Gt.
Proof.
  intros Hb. induction a as [|c a IH]; simpl.
  - by destruct b.
  - unfold Ascii.compare. by rewrite N.compare_refl.
Qed.

(** X13: with a non-empty [date], the listing's window is closed at both
    ends and its upper end is the text [dateT23:59:59] itself.  A roster
    whose [start_time] is that text followed by anything more (a fraction of
    a second, an offset) is left out of the day's listing; a roster whose
    [end_time] is exactly [dateT00:00:00] is listed for the day, provided its
    [start_time] is at most [dateT23:59:59]. *)
Theorem day_window_edges (date : string) (user_id : option string) (st : Store)
    (l : list listed) :
  date <> "" ->
  list_rosters user_id (Some date) st = (st, Return l) ->
  (forall r suffix,
     suffix <> "" ->
     field_is "start_time" ((date ++ "T23:59:59") ++ suffix) (body r) ->
     ~ In (normalize r) l) /\
  (forall r s,
     In r (collection "roster" st) ->
     wanted "user_id" user_id (body r) = true ->
     field_is "start_time" s (body r) ->
     str_le s (date ++ "T23:59:59") ->
     field_is "end_time" (date ++ "T00:00:00") (body r) ->
     In (normalize r) l).
Proof.
  intros Hdate. apply String.eqb_neq in Hdate.
  rewrite list_rosters_selects. intros [= <-]. split.
  - intros r suffix Hsuffix Hstart Hin.
    apply in_listing in Hin as (u & _ & HP & Heq). apply normalize_inj in Heq as <-.
    apply andb_true_iff in HP as [_ Hday]. unfold wanted_day in Hday. rewrite Hdate in Hday.
    apply in_day_window_spec in Hday as (s & e & Hs & _ & Hle & _).
    unfold field_is in *. rewrite Hstart in Hs. inversion Hs; subst.
    unfold str_le, String.leb in Hle. by rewrite compare_extension in Hle.
  - intros r s Hin Huser Hstart Hle Hend.
    apply in_listing. exists r. split; [done|]. split; [|done].
    rewrite Huser. unfold wanted_day. rewrite Hdate. simpl.
    apply in_day_window_spec. exists s, (date ++ "T00:00:00"). repeat split; try done.
    unfold str_le, String.leb.
    pose proof (String.compare_antisym (date ++ "T00:00:00") (date ++ "T00:00:00")) as Hanti.
    destruct (String.compare _ _); simpl in Hanti; congruence.
Qed.

(** ** The diagnostics endpoint *)

(** X14: whatever the handle does, the diagnostics never report the
    database as "Not Available" (the initial text is always overwritten);
    collection names are reported only together with "Connected & Working";
    the status is "Connected" exactly when there is a handle whose name can
    be read, and "Connected & Working" exactly when, besides, the collection
    names can be listed; the environment variable is reported exactly when
    there is a handle. *)
Theorem test_database_reports
    (first80 : string -> string) (db : option Diagnostics.handle) (url : option string) :
  let r := test_database first80 db url in
  let readable :=
    exists h, db = Some h /\ forall m, Diagnostics.name h <> Diagnostics.Failing m in
  Diagnostics.backend r = "✅ Running" /\
  Diagnostics.database r <> "❌ Not Available" /\
  (Diagnostics.collections r <> [] -> Diagnostics.database r = "✅ Connected & Working") /\
  (Diagnostics.connection_status r = "Connected" <-> readable) /\
  (Diagnostics.database r = "✅ Connected & Working" <->
   readable /\ exists h names,
     db = Some h /\ Diagnostics.list_collection_names h = inr names) /\
  (Diagnostics.database_url r = None <-> db = None).
Proof.
  cbv zeta.
  assert (Hread : forall a ns, (forall m, a <> Diagnostics.Failing m) ->
            exists h, Some (Diagnostics.Handle a ns) = Some h /\
                      forall m, Diagnostics.name h <> Diagnostics.Failing m).
  { intros a ns Ha. by exists (Diagnostics.Handle a ns). }
  destruct db as [[attr names]|].
  - destruct attr as [| v | m].
    + destruct names as [e | ns]; cbn.
      * split; [done|]. split; [done|]. split; [done|]. split.
        { split; [intros _; by apply Hread | done]. }
        split; [|done]. split; [done|]. intros [_ (h & names & [= <-] & Hn)]. done.
      * split; [done|]. split; [done|]. split; [done|]. split.
        { split; [intros _; by apply Hread | done]. }
        split; [|done]. split; [|done]. intros _. split; [by apply Hread|]. by eexists _, _.
    + destruct names as [e | ns]; cbn.
      * split; [done|]. split; [done|]. split; [done|]. split.
        { split; [intros _; by apply Hread | done]. }
        split; [|done]. split; [done|]. intros [_ (h & names & [= <-] & Hn)]. done.
      * split; [done|]. split; [done|]. split; [done|]. split.
        { split; [intros _; by apply Hread | done]. }
        split; [|done]. split; [|done]. intros _. split; [by apply Hread|]. by eexists _, _.
    + cbn. split; [done|]. split; [done|]. split; [done|]. split.
      { split; [done|]. intros (h & [= <-] & Hn). by destruct (Hn m). }
      split; [|done]. split; [done|]. intros [(h & [= <-] & Hn) _]. by destruct (Hn m).
  - cbn. split; [done|]. split; [done|]. split; [done|]. split.
    { split; [done|]. by intros (h & Hh & _). }
    split; [|done]. split; [done|]. by intros [(h & Hh & _) _].
Qed.

(** ** A comparison that raises *)

Section MixedAwareness.
Context `{Libraries}.

(** X16: when both times parse but comparing them raises [TypeError] (one
    is offset-naive, the other offset-aware), nothing catches it: the
    response is a 500 without detail, and no roster is written. *)
Theorem create_roster_incomparable (p : CreateRoster.t) (st : Store) (s e : datetime) :
  fromisoformat (CreateRoster.start_time p) = Some s ->
  fromisoformat (CreateRoster.end_time p) = Some e ->
  datetime_le e s = None ->
  create_roster p st = (st, Raise TypeError) /\
  status_code_of (snd (create_roster p st)) = 500 /\
  detail_of (snd (create_roster p st)) = None.
Proof.
  intros Hs He Hle.
  assert (Hrun : create_roster p st = (st, Raise TypeError)).
  { unfold create_roster. run_handler.
    rewrite Hs. run_handler. rewrite He. run_handler. rewrite Hle. by run_handler. }
  by rewrite Hrun.
Qed.

End MixedAwareness.

(** ** What the checks leave in the store *)

Section StoredShapes.
Context `{Libraries}.

(** X17: whatever requests are served, every stored user has a role among
    admin, manager and member and is stored as active, if that held before:
    no user gets past the schema with another role, and no payload can
    create an inactive user. *)
Theorem users_stay_valid (rs : list request) (st : Store) :
  users_valid st -> users_valid (serve_all rs st).
Proof.
  apply serve_all_invariant. clear. intros r st Hinv.
  destruct (serve_store r st) as [-> | Hins]; [done|].
  unfold users_valid in *.
  destruct r as [p | ? ? | p | ? | p | ? ?]; try done.
  - destruct Hins as (data & Hv & _ & ->). rewrite collection_insert_same.
    intros u Hin. apply in_app_iff in Hin as [Hin | [<- | []]]; [by apply Hinv|].
    unfold UserSchema in Hv.
    destruct (validate_email _); [destruct (role_literal _) eqn:Hrole|]; try discriminate.
    injection Hv as <-. simpl. split; [|done].
    exists (CreateUser.role p). by split.
  - destruct Hins as (_ & ->). by rewrite collection_insert_other.
  - destruct Hins as (_ & _ & ->). by rewrite collection_insert_other.
Qed.

(** X18: whatever requests are served, every stored roster has a start and
    an end that parse, with the parsed end strictly after the parsed start,
    if that held before. *)
Theorem rosters_stay_ordered (rs : list request) (st : Store) :
  rosters_ordered st -> rosters_ordered (serve_all rs st).
Proof.
  apply serve_all_invariant. clear. intros r st Hinv.
  destruct (serve_store r st) as [-> | Hins]; [done|].
  unfold rosters_ordered in *.
  destruct r as [p | ? ? | p | ? | p | ? ?]; try done.
  - destruct Hins as (data & _ & _ & ->). by rewrite collection_insert_other.
  - destruct Hins as (_ & ->). by rewrite collection_insert_other.
  - destruct Hins as ((s & e & Hs & He & Hle) & _ & ->). rewrite collection_insert_same.
    intros x Hin. apply in_app_iff in Hin as [Hin | [<- | []]]; [by apply Hinv|].
    exists (CreateRoster.start_time p), (CreateRoster.end_time p), s, e.
    by repeat split.
Qed.

End StoredShapes.

(** * The further properties at work *)

Lemma racing_users_share_email_witness :
  let st' := insert_document "user" (model_dump (validated bob_twin)) one_user in
  race (create_user_lookup (H := Reference.libraries) bob)
       (create_user_lookup (H := Reference.libraries) bob_twin)
       create_user_insert empty_store
    = (st', (Return 0%N, Return 1%N)) /\
  ~ emails_unique st' /\
  snd (create_user (H := Reference.libraries) bob_twin one_user)
    = Raise (HTTPException 400 "Email already exists").
Proof.
  destruct (racing_users_share_email (H := Reference.libraries) bob bob_twin
              (validated bob) (validated bob_twin) empty_store)
    as (_ & Hrace & Hbroken & Hseq);
    [reflexivity | reflexivity | reflexivity | |].
  - intros [u [Hin _]]. exact Hin.
  - split; [exact Hrace|]. split; [exact Hbroken|]. exact (f_equal snd Hseq).
Defined.

Lemma racing_tasktypes_clash_witness :
  let st1 := fst (create_tasktype development empty_store) in
  let st' := insert_document "tasktype" (model_dump (TasktypeSchema development_twin)) st1 in
  race (create_tasktype_lookup development) (create_tasktype_lookup development_twin)
       create_tasktype_insert empty_store
    = (st', (Return 0%N, Return 1%N)) /\
  ~ (names_unique st' /\ codes_unique st') /\
  snd (create_tasktype development_twin st1)
    = Raise (HTTPException 400 "Task type with same name/code exists").
Proof.
  destruct (racing_tasktypes_clash development development_twin empty_store)
    as (_ & Hrace & Hbroken & Hseq).
  - left. reflexivity.
  - intros [d [Hin _]]. exact Hin.
  - intros [d [Hin _]]. exact Hin.
  - split; [exact Hrace|]. split; [exact Hbroken|]. exact (f_equal snd Hseq).
Defined.

Lemma racing_rosters_overlap_witness :
  let st' := insert_document "roster" (model_dump (RosterSchema midmorning)) one_roster in
  race (create_roster_lookup (H := Reference.libraries) morning)
       (create_roster_lookup (H := Reference.libraries) midmorning)
       create_roster_insert empty_store
    = (st', (Return 0%N, Return 1%N)) /\
  ~ no_overlaps st' /\
  snd (create_roster (H := Reference.libraries) midmorning one_roster)
    = Raise (HTTPException 400 "Overlapping roster for this user").
Proof.
  destruct (racing_rosters_overlap (H := Reference.libraries) morning midmorning empty_store)
    as (_ & Hrace & Hbroken & Hseq).
  - exists (Reference.Naive 2024 1 15 10 0 0), (Reference.Naive 2024 1 15 11 0 0).
    repeat split; reflexivity.
  - exists (Reference.Naive 2024 1 15 10 30 0), (Reference.Naive 2024 1 15 11 30 0).
    repeat split; reflexivity.
  - split; [reflexivity|].
    exists "2024-01-15T10:00:00", "2024-01-15T11:00:00". repeat split; reflexivity.
  - intros [d [Hin _]]. exact Hin.
  - intros [d [Hin _]]. exact Hin.
  - split; [exact Hrace|]. split; [exact Hbroken|]. exact (f_equal snd Hseq).
Defined.

Lemma created_user_stays_duplicate_witness :
  create_user (H := Reference.libraries) bob
    (serve_all (H := Reference.libraries) busy_day one_user)
  = (serve_all (H := Reference.libraries) busy_day one_user,
     Raise (HTTPException 400 "Email already exists")).
Proof.
  apply (created_user_stays_duplicate (H := Reference.libraries) bob empty_store one_user 0%N).
  reflexivity.
Defined.

Lemma created_tasktype_stays_duplicate_witness :
  let st' := fst (create_tasktype development empty_store) in
  create_tasktype development (serve_all (H := Reference.libraries) busy_day st')
  = (serve_all (H := Reference.libraries) busy_day st',
     Raise (HTTPException 400 "Task type with same name/code exists")).
Proof.
  apply (created_tasktype_stays_duplicate (H := Reference.libraries) development empty_store
           (fst (create_tasktype development empty_store)) 0%N).
  reflexivity.
Defined.

Lemma created_roster_resubmitted_witness :
  create_roster (H := Reference.libraries) morning
    (serve_all (H := Reference.libraries) busy_day one_roster)
  = (serve_all (H := Reference.libraries) busy_day one_roster,
     Raise (HTTPException 400 "Overlapping roster for this user")) /\
  let st' := fst (create_roster (H := Offsets.libraries) zoned empty_store) in
  create_roster (H := Offsets.libraries) zoned st'
  = (insert_document "roster" (model_dump (RosterSchema zoned)) st', Return 1%N).
Proof.
  split.
  - apply (created_roster_resubmitted (H := Reference.libraries) morning empty_store
             one_roster 0%N busy_day); reflexivity.
  - apply (created_roster_resubmitted (H := Offsets.libraries) zoned empty_store
             (fst (create_roster (H := Offsets.libraries) zoned empty_store)) 0%N []);
      [reflexivity | discriminate].
Defined.

Lemma roster_creation_commutes_witness :
  create_roster (H := Reference.libraries) next_hour empty_store
    = (insert_document "roster" (model_dump (RosterSchema next_hour)) empty_store,
       Return 0%N) /\
  create_roster (H := Reference.libraries) morning
      (insert_document "roster" (model_dump (RosterSchema next_hour)) empty_store)
    = (insert_document "roster" (model_dump (RosterSchema morning))
         (insert_document "roster" (model_dump (RosterSchema next_hour)) empty_store),
       Return 1%N).
Proof.
  apply (roster_creation_commutes (H := Reference.libraries) morning next_hour empty_store
           one_roster
           (fst (create_roster (H := Reference.libraries) next_hour one_roster)));
    reflexivity.
Defined.

Lemma created_user_is_listed_witness :
  exists data,
    UserSchema (H := Reference.libraries) bob = Return data /\
    list_users (Some "member") None one_user
    = (one_user, Return [Listed 0%N (model_dump data)]) /\
    list_users (Some "manager") None one_user = (one_user, Return []).
Proof.
  destruct (created_user_is_listed (H := Reference.libraries) bob empty_store one_user 0%N
              eq_refl) as (data & Hv & Hlist & _).
  exists data. split; [exact Hv|]. split.
  - rewrite (Hlist (Some "member") None [] eq_refl).
    injection Hv as <-. reflexivity.
  - rewrite (Hlist (Some "manager") None [] eq_refl).
    injection Hv as <-. reflexivity.
Defined.

Lemma created_tasktype_is_listed_witness :
  let st' := fst (create_tasktype development empty_store) in
  list_tasktypes (Some true) st'
    = (st', Return [Listed 0%N (model_dump (TasktypeSchema development))]) /\
  list_tasktypes (Some false) st' = (st', Return []).
Proof.
  split.
  - apply (created_tasktype_is_listed development empty_store
             (fst (create_tasktype development empty_store)) 0%N eq_refl (Some true) [] eq_refl).
  - apply (created_tasktype_is_listed development empty_store
             (fst (create_tasktype development empty_store)) 0%N eq_refl (Some false) [] eq_refl).
Defined.

Lemma created_roster_is_listed_witness :
  list_rosters (Some "ann") (Some "2024-01-15") one_roster
    = (one_roster, Return [Listed 0%N (model_dump (RosterSchema morning))]) /\
  list_rosters (Some "ann") (Some "2024-01-16") one_roster = (one_roster, Return []).
Proof.
  destruct (created_roster_is_listed (H := Reference.libraries) morning empty_store one_roster
              0%N eq_refl) as (Hlist & _).
  split.
  - apply (Hlist (Some "ann") (Some "2024-01-15") [] eq_refl).
  - apply (Hlist (Some "ann") (Some "2024-01-16") [] eq_refl).
Defined.


Lemma day_window_edges_witness :
  In (Listed 0%N (model_dump (RosterSchema overnight)))
     [Listed 0%N (model_dump (RosterSchema overnight))] /\
  ~ In (Listed 1%N (model_dump (RosterSchema late)))
       [Listed 0%N (model_dump (RosterSchema overnight))].
Proof.
  destruct (day_window_edges "2024-01-15" None edge_rosters
              [Listed 0%N (model_dump (RosterSchema overnight))])
    as [Hout Hin]; [discriminate | reflexivity |].
  split.
  - exact (Hin (Stored 0%N (model_dump (RosterSchema overnight))) "2024-01-14T22:00:00"
             (or_introl eq_refl) eq_refl eq_refl eq_refl eq_refl).
  - assert (Hsuffix : ".500" <> "") by discriminate.
    exact (Hout (Stored 1%N (model_dump (RosterSchema late))) ".500" Hsuffix eq_refl).
Defined.

Lemma create_roster_incomparable_witness :
  create_roster (H := Offsets.libraries) mixed one_roster = (one_roster, Raise TypeError) /\
  status_code_of (snd (create_roster (H := Offsets.libraries) mixed one_roster)) = 500 /\
  detail_of (snd (create_roster (H := Offsets.libraries) mixed one_roster)) = None.
Proof.
  apply (create_roster_incomparable (H := Offsets.libraries) mixed one_roster
           (Offsets.Make (Reference.Naive 2024 1 15 10 0 0) None)
           (Offsets.Make (Reference.Naive 2024 1 15 11 0 0) (Some 1440%N)));
    reflexivity.
Defined.

Lemma users_stay_valid_witness :
  users_valid (serve_all (H := Reference.libraries) busy_day empty_store).
Proof.
  apply (users_stay_valid (H := Reference.libraries) busy_day empty_store).
  intros u Hin. destruct Hin.
Defined.

Lemma rosters_stay_ordered_witness :
  rosters_ordered (H := Reference.libraries)
    (serve_all (H := Reference.libraries) busy_day empty_store).
Proof.
  apply (rosters_stay_ordered (H := Reference.libraries) busy_day empty_store).
  intros r Hin. destruct Hin.
Defined.
